(** * coders.py: the three tools RequirementsManager, SuperDeveloper and
      SuperTester

    A shallow embedding of the [forward] methods of [coders.py].  The tools
    talk to the operating system (directories, files, child processes), to
    the clock and to a Selenium driver; those are modelled by an oracle
    ([World] for the tester, [DevWorld] for the developer) that answers
    every external call, and by an explicit state that records what the
    tool did: the events in order and, for the tester, the [Popen] handles
    that were created and not yet killed, the local list [log], and the
    browser session. *)

From Stdlib Require Import String Ascii List ZArith Bool Lia.
From Stdlib Require Import DecimalString.
Import ListNotations.
Open Scope string_scope.

(* ------------------------------------------------------------------ *)
(** ** Python strings *)

Module PyStr.

Definition newline : string := String (ascii_of_nat 10) EmptyString.

(** [sep.join(xs)] *)
Definition join (sep : string) (xs : list string) : string :=
  String.concat sep xs.

(** [needle in hay] for two [str] values. *)
Fixpoint str_in (needle hay : string) : bool :=
  match hay with
  | EmptyString => String.prefix needle EmptyString
  | String _ rest => String.prefix needle hay || str_in needle rest
  end.

(** [c in s] for a single character. *)
Fixpoint has_char (c : ascii) (s : string) : bool :=
  match s with
  | EmptyString => false
  | String d rest => Ascii.eqb c d || has_char c rest
  end.

(** [repr] of a [str] without quotes, backslashes or control characters
    (every argument vector of this program is made of such strings). *)
Definition repr_str (s : string) : string := "'" ++ s ++ "'".

(** [str] of a list of such strings: ['a', 'b']. *)
Definition str_list (xs : list string) : string :=
  "[" ++ join ", " (map repr_str xs) ++ "]".

(** ["%d" % z] *)
Definition str_int (z : Z) : string := NilZero.string_of_int (Z.to_int z).

(** [os.path.join(a, b)] on POSIX for a relative, non-empty [b] and an
    [a] that does not end in a slash. *)
Definition os_path_join (a b : string) : string := a ++ "/" ++ b.

(** [a == b] for two lists of [str]. *)
Definition argv_eqb (a b : list string) : bool :=
  if list_eq_dec string_dec a b then true else false.

End PyStr.
Import PyStr.

(* ------------------------------------------------------------------ *)
(** ** Exceptions *)

(** The exceptions the calls of [forward] raise.  [CalledProcessError] is
    what [subprocess.run(..., check=True)] raises when the child exits with a
    non-zero status; [OSError] (FileNotFoundError, PermissionError, ...) is
    what [subprocess.run] and [subprocess.Popen] raise when the child cannot
    be started; [WebDriverException] stands for whatever the Selenium calls
    raise.  All three derive from [Exception]; none derives from another. *)
Inductive exc : Type :=
| CalledProcessError (returncode : Z) (cmd : list string)
| OSError (strerror : string)
| WebDriverException (msg : string).

Definition is_CalledProcessError (e : exc) : bool :=
  match e with CalledProcessError _ _ => true | _ => false end.

Definition is_Exception (e : exc) : bool := true.

(** Members of [signal.Signals] on Linux, by number. *)
Definition Signals : list (Z * string) :=
  [ (1, "SIGHUP"); (2, "SIGINT"); (3, "SIGQUIT"); (4, "SIGILL");
    (5, "SIGTRAP"); (6, "SIGABRT"); (7, "SIGBUS"); (8, "SIGFPE");
    (9, "SIGKILL"); (10, "SIGUSR1"); (11, "SIGSEGV"); (12, "SIGUSR2");
    (13, "SIGPIPE"); (14, "SIGALRM"); (15, "SIGTERM"); (16, "SIGSTKFLT");
    (17, "SIGCHLD"); (18, "SIGCONT"); (19, "SIGSTOP"); (20, "SIGTSTP");
    (21, "SIGTTIN"); (22, "SIGTTOU"); (23, "SIGURG"); (24, "SIGXCPU");
    (25, "SIGXFSZ"); (26, "SIGVTALRM"); (27, "SIGPROF"); (28, "SIGWINCH");
    (29, "SIGIO"); (30, "SIGPWR"); (31, "SIGSYS"); (34, "SIGRTMIN");
    (64, "SIGRTMAX") ]%Z.

Fixpoint signal_name (tbl : list (Z * string)) (n : Z) : option string :=
  match tbl with
  | [] => None
  | (k, name) :: tbl' => if Z.eqb k n then Some name else signal_name tbl' n
  end.

(** [CalledProcessError.__str__]:
    a negative return code is the number of the signal that ended the
    child, anything else is its exit status. *)
Definition str_CalledProcessError (returncode : Z) (cmd : list string) : string :=
  if (returncode <? 0)%Z then
    match signal_name Signals (- returncode) with
    | Some name =>
        "Command '" ++ str_list cmd ++ "' died with <Signals." ++ name
          ++ ": " ++ str_int (- returncode) ++ ">."
    | None =>
        "Command '" ++ str_list cmd ++ "' died with unknown signal "
          ++ str_int (- returncode) ++ "."
    end
  else
    "Command '" ++ str_list cmd ++ "' returned non-zero exit status "
      ++ str_int returncode ++ ".".

(** [str(e)], as the f-strings of [forward] format it. *)
Definition str_exc (e : exc) : string :=
  match e with
  | CalledProcessError rc cmd => str_CalledProcessError rc cmd
  | OSError m => m
  | WebDriverException m => m
  end.

(* ------------------------------------------------------------------ *)
(** ** The outside world *)

(** How a child started by [subprocess.run] ends. *)
Inductive child_result : Type :=
| Exited (returncode : Z)
| NotStarted (strerror : string).

(** One answer per external call.  [None] in the option-valued fields is
    the call going through, [Some m] is the call raising with message [m].
    [offspring argv cwd] lists the processes that the command [argv],
    once started by [Popen] in [cwd], starts in its turn and that go on
    when it is gone: for [npm start] the command of the start script,
    [node index.js]. *)
Record World : Type := {
  isdir : string -> bool;
  run_child : list string -> string -> child_result;
  popen_child : list string -> string -> option string;
  offspring : list string -> string -> list string;
  chrome_start : option string;
  page_load : string -> option string;
  body_text : option string -> string + string;
  chrome_quit : option string
}.

(** A [subprocess.Popen] object, named by its rank of creation. *)
Definition Popen := nat.

Inductive event : Type :=
| EIsDir (path : string) (found : bool)
| ERun (argv : list string) (cwd : string) (r : child_result)
| EPopen (argv : list string) (cwd : string) (r : option Popen)
| ESleep (secs : nat)
| EKill (p : Popen)
| EChrome (started : bool)
| EGet (url : string) (loaded : bool)
| EBody (text : option string)
| EQuit (done : bool).

Inductive browser : Type :=
| NoSession
| SessionOpen (page : option string)
| SessionClosed.

(** [spawned] holds the [Popen] objects created so far and [running] those
    whose own process (the one [Popen] started, whose pid the object
    holds) has not been sent a signal by [kill()].  [descendants] holds
    the processes started by those processes, each with the object it
    descends from; they have their own pids, which the tool never learns.
    The browser's processes are those of the session in [driver]. *)
Record State : Type := {
  trace : list event;
  spawned : list Popen;
  running : list Popen;
  descendants : list (Popen * string);
  log : list string;
  driver : browser
}.

Definition init : State :=
  {| trace := []; spawned := []; running := []; descendants := [];
     log := []; driver := NoSession |}.

(* ------------------------------------------------------------------ *)
(** ** Statements: state, exceptions and [return] *)

Inductive outcome (A : Type) : Type :=
| Normal (a : A)
| Return (v : string)
| Raise (e : exc).
Arguments Normal {A} a.
Arguments Return {A} v.
Arguments Raise {A} e.

(** A statement run in a world of type [W] on a state of type [S]. *)
Definition M (W S A : Type) : Type := W -> S -> outcome A * S.

Section Statements.

Context {W S : Type}.

Definition ret {A} (a : A) : M W S A := fun _ s => (Normal a, s).

Definition bind {A B} (c : M W S A) (k : A -> M W S B) : M W S B :=
  fun w s =>
    match c w s with
    | (Normal a, s') => k a w s'
    | (Return v, s') => (Return v, s')
    | (Raise e, s') => (Raise e, s')
    end.

Definition py_return {A} (v : string) : M W S A := fun _ s => (Return v, s).

Definition raise {A} (e : exc) : M W S A := fun _ s => (Raise e, s).

(** [try: body  except T as e: handler e], with [handles] the test
    [isinstance(e, T)]. *)
Definition try_except {A} (body : M W S A) (handles : exc -> bool)
    (handler : exc -> M W S A) : M W S A :=
  fun w s =>
    match body w s with
    | (Raise e, s') => if handles e then handler e w s' else (Raise e, s')
    | r => r
    end.

End Statements.

(** What the caller of a tool's [forward] sees. *)
Inductive result : Type :=
| Returned (v : string)
| Threw (e : exc).

(** A function body ends in [return] on every path that does not raise. *)
Definition call {W S} (body : M W S Empty_set) (w : W) (s : S) : result * S :=
  match body w s with
  | (Normal a, _) => match a with end
  | (Return v, s') => (Returned v, s')
  | (Raise e, s') => (Threw e, s')
  end.

Declare Scope py_scope.
Delimit Scope py_scope with py.
Notation "x <- c ;; k" := (bind c (fun x => k))
  (at level 61, c at next level, right associativity) : py_scope.
Notation "c ;; k" := (bind c (fun _ => k))
  (at level 61, right associativity) : py_scope.
Open Scope py_scope.

(** Statements of the tester. *)
Definition TesterM (A : Type) : Type := M World State A.

Definition emit (e : event) (s : State) : State :=
  {| trace := trace s ++ [e]; spawned := spawned s; running := running s;
     descendants := descendants s;
     log := log s; driver := driver s |}.

Definition set_running (ps : list Popen) (s : State) : State :=
  {| trace := trace s; spawned := spawned s; running := ps;
     descendants := descendants s;
     log := log s; driver := driver s |}.

Definition set_spawned (ps : list Popen) (s : State) : State :=
  {| trace := trace s; spawned := ps; running := running s;
     descendants := descendants s;
     log := log s; driver := driver s |}.

Definition set_log (l : list string) (s : State) : State :=
  {| trace := trace s; spawned := spawned s; running := running s;
     descendants := descendants s; log := l; driver := driver s |}.

Definition set_driver (b : browser) (s : State) : State :=
  {| trace := trace s; spawned := spawned s; running := running s;
     descendants := descendants s; log := log s; driver := b |}.

Definition set_descendants (ds : list (Popen * string)) (s : State) : State :=
  {| trace := trace s; spawned := spawned s; running := running s;
     descendants := ds; log := log s; driver := driver s |}.

(** [log.append(line)] *)
Definition log_append (line : string) : TesterM unit :=
  fun _ s => (Normal tt, set_log (log s ++ [line]) s).

Definition get_log : TesterM (list string) := fun _ s => (Normal (log s), s).

(** [os.path.isdir(path)] *)
Definition os_path_isdir (path : string) : TesterM bool :=
  fun w s => let b := isdir w path in (Normal b, emit (EIsDir path b) s).

(** [subprocess.run(argv, cwd=cwd, check=True)]: the child has ended by the
    time the call returns or raises. *)
Definition subprocess_run (argv : list string) (cwd : string) : TesterM unit :=
  fun w s =>
    let r := run_child w argv cwd in
    let s' := emit (ERun argv cwd r) s in
    match r with
    | Exited rc =>
        if (rc =? 0)%Z then (Normal tt, s')
        else (Raise (CalledProcessError rc argv), s')
    | NotStarted m => (Raise (OSError m), s')
    end.

(** [subprocess.Popen(argv, cwd=cwd, ...)]: the child runs on after the
    call, and so does what it starts itself. *)
Definition subprocess_Popen (argv : list string) (cwd : string) : TesterM Popen :=
  fun w s =>
    match popen_child w argv cwd with
    | None =>
        let p := length (spawned s) in
        (Normal p,
         set_descendants
           (descendants s ++ map (pair p) (offspring w argv cwd))
           (set_running (running s ++ [p])
              (set_spawned (spawned s ++ [p])
                 (emit (EPopen argv cwd (Some p)) s))))
    | Some m => (Raise (OSError m), emit (EPopen argv cwd None) s)
    end.

(** [time.sleep(secs)] *)
Definition time_sleep (secs : nat) : TesterM unit :=
  fun _ s => (Normal tt, emit (ESleep secs) s).

(** [p.kill()]: SIGKILL to the pid the object holds, the process [Popen]
    started; no error if that process is gone already.  The signal goes
    to that one process: what it started itself is not signalled. *)
Definition Popen_kill (p : Popen) : TesterM unit :=
  fun _ s =>
    (Normal tt,
     set_running (filter (fun q => negb (Nat.eqb q p)) (running s))
       (emit (EKill p) s)).

(** [webdriver.Chrome(options=chrome_options)]: starts the driver and the
    browser; they live as long as the session is open. *)
Definition webdriver_Chrome : TesterM unit :=
  fun w s =>
    match chrome_start w with
    | None => (Normal tt, set_driver (SessionOpen None) (emit (EChrome true) s))
    | Some m => (Raise (WebDriverException m), emit (EChrome false) s)
    end.

(** [driver.get(url)] *)
Definition driver_get (url : string) : TesterM unit :=
  fun w s =>
    match page_load w url with
    | None =>
        (Normal tt, set_driver (SessionOpen (Some url)) (emit (EGet url true) s))
    | Some m => (Raise (WebDriverException m), emit (EGet url false) s)
    end.

Definition current_page (b : browser) : option string :=
  match b with SessionOpen p => p | _ => None end.

(** [driver.find_element(By.TAG_NAME, "body").text] *)
Definition driver_body_text : TesterM string :=
  fun w s =>
    match body_text w (current_page (driver s)) with
    | inl t => (Normal t, emit (EBody (Some t)) s)
    | inr m => (Raise (WebDriverException m), emit (EBody None) s)
    end.

(** [driver.quit()] *)
Definition driver_quit : TesterM unit :=
  fun w s =>
    match chrome_quit w with
    | None => (Normal tt, set_driver SessionClosed (emit (EQuit true) s))
    | Some m => (Raise (WebDriverException m), emit (EQuit false) s)
    end.

(* ------------------------------------------------------------------ *)
(** ** SuperTester.forward *)

Definition node_url : string := "http://localhost:3000".
Definition django_url : string := "http://localhost:8000".

Definition npm_install : list string := ["npm"; "install"].
Definition npm_start : list string := ["npm"; "start"].
Definition manage_migrate : list string := ["python"; "manage.py"; "migrate"].
Definition manage_runserver : list string :=
  ["python"; "manage.py"; "runserver"; "8000"].

Definition forward (requirements : string) : TesterM Empty_set :=
  let node_dir := os_path_join "code" "node" in
  found <- os_path_isdir node_dir ;;
  (if negb found
   then py_return "No /code/node folder found. Did you run SuperDeveloper?"
   else ret tt) ;;
  log_append "[TEST] Installing Node dependencies with 'npm install'..." ;;
  try_except (subprocess_run npm_install node_dir)
    is_CalledProcessError
    (fun e => py_return ("Error installing node dependencies: " ++ str_exc e)) ;;
  log_append "[TEST] Starting Node server on port 3000..." ;;
  node_process <- subprocess_Popen npm_start node_dir ;;
  time_sleep 3 ;;
  let django_dir := os_path_join "code" "django" in
  found <- os_path_isdir django_dir ;;
  (if negb found
   then Popen_kill node_process ;;
        py_return "No /code/django folder found. Did you run SuperDeveloper?"
   else ret tt) ;;
  log_append "[TEST] Applying Django migrations and starting server on port 8000..." ;;
  django_process <-
    try_except
      (subprocess_run manage_migrate django_dir ;;
       p <- subprocess_Popen manage_runserver django_dir ;;
       time_sleep 3 ;;
       ret p)
      is_CalledProcessError
      (fun e => Popen_kill node_process ;;
                py_return ("Error setting up Django project: " ++ str_exc e)) ;;
  log_append "[TEST] Setting up Selenium (headless Chrome) to test endpoints..." ;;
  try_except
    (webdriver_Chrome ;;
     driver_get node_url ;;
     node_page_text <- driver_body_text ;;
     (if str_in "Hello World" node_page_text
      then log_append "[TEST] Node server: PASS (contains 'Hello World')."
      else log_append "[TEST] Node server: FAIL (no 'Hello World').") ;;
     driver_get django_url ;;
     django_page_text <- driver_body_text ;;
     (if str_in "Hello World" django_page_text
      then log_append "[TEST] Django server: PASS (contains 'Hello World')."
      else log_append "[TEST] Django server: FAIL (no 'Hello World').") ;;
     driver_quit)
    is_Exception
    (fun e => log_append ("[TEST] Selenium error: " ++ str_exc e)) ;;
  log_append "[TEST] Shutting down servers..." ;;
  Popen_kill node_process ;;
  Popen_kill django_process ;;
  lines <- get_log ;;
  py_return (join newline lines).

(** One run of the tool in world [w], from a fresh state. *)
Definition run (requirements : string) (w : World) : result * State :=
  call (forward requirements) w init.

(* ------------------------------------------------------------------ *)
(** ** Worlds used as concrete inputs *)

Module Worlds.

(** Both projects present, every command succeeds, both pages load and
    show the text. *)
Definition all_up : World :=
  {| isdir := fun _ => true;
     run_child := fun _ _ => Exited 0;
     popen_child := fun _ _ => None;
     offspring := fun _ _ => [];
     chrome_start := None;
     page_load := fun _ => None;
     body_text := fun _ => inl "Hello World";
     chrome_quit := None |}.

(** [code/django] does not exist. *)
Definition django_dir_missing : World :=
  {| isdir := fun p => negb (String.eqb p "code/django");
     run_child := run_child all_up;
     popen_child := popen_child all_up;
     offspring := offspring all_up;
     chrome_start := None;
     page_load := page_load all_up;
     body_text := body_text all_up;
     chrome_quit := None |}.

(** [manage.py migrate] exits with status 1. *)
Definition migrate_fails : World :=
  {| isdir := isdir all_up;
     run_child := fun argv _ =>
       if argv_eqb argv manage_migrate then Exited 1 else Exited 0;
     popen_child := popen_child all_up;
     offspring := offspring all_up;
     chrome_start := None;
     page_load := page_load all_up;
     body_text := body_text all_up;
     chrome_quit := None |}.

(** No [npm] executable on the PATH: starting it raises
    FileNotFoundError. *)
Definition npm_not_installed : World :=
  {| isdir := isdir all_up;
     run_child := fun argv _ =>
       if argv_eqb argv npm_install
       then NotStarted "[Errno 2] No such file or directory: 'npm'"
       else Exited 0;
     popen_child := popen_child all_up;
     offspring := offspring all_up;
     chrome_start := None;
     page_load := page_load all_up;
     body_text := body_text all_up;
     chrome_quit := None |}.

(** No [python] executable on the PATH (only [python3], say). *)
Definition python_not_installed : World :=
  {| isdir := isdir all_up;
     run_child := fun argv _ =>
       if argv_eqb argv manage_migrate
       then NotStarted "[Errno 2] No such file or directory: 'python'"
       else Exited 0;
     popen_child := popen_child all_up;
     offspring := offspring all_up;
     chrome_start := None;
     page_load := page_load all_up;
     body_text := body_text all_up;
     chrome_quit := None |}.

(** The Node server is not listening yet when the browser asks: the
    navigation raises. *)
Definition node_not_listening : World :=
  {| isdir := isdir all_up;
     run_child := run_child all_up;
     popen_child := popen_child all_up;
     offspring := offspring all_up;
     chrome_start := None;
     page_load := fun url =>
       if String.eqb url node_url
       then Some "Message: unknown error: net::ERR_CONNECTION_REFUSED"
       else None;
     body_text := body_text all_up;
     chrome_quit := None |}.

(** Node serves a page without the expected text. *)
Definition node_wrong_text : World :=
  {| isdir := isdir all_up;
     run_child := run_child all_up;
     popen_child := popen_child all_up;
     offspring := offspring all_up;
     chrome_start := None;
     page_load := page_load all_up;
     body_text := fun page =>
       match page with
       | Some url => if String.eqb url node_url then inl "Cannot GET /"
                     else inl "Hello World"
       | None => inl ""
       end;
     chrome_quit := None |}.

(** The migration exits with status 1, on a machine where [npm start]
    runs the start script of [package.json] as a process of its own. *)
Definition migrate_fails_under_npm : World :=
  {| isdir := isdir all_up;
     run_child := fun argv _ =>
       if argv_eqb argv manage_migrate then Exited 1 else Exited 0;
     popen_child := popen_child all_up;
     offspring := fun argv _ =>
       if argv_eqb argv npm_start then ["node index.js"] else [];
     chrome_start := None;
     page_load := page_load all_up;
     body_text := body_text all_up;
     chrome_quit := None |}.

End Worlds.

(* ------------------------------------------------------------------ *)
(** ** The paths through [forward] *)

Module Paths.

Definition selenium_error (m : string) : string :=
  "[TEST] Selenium error: " ++ m.

Definition node_verdict (page_text : string) : string :=
  if str_in "Hello World" page_text
  then "[TEST] Node server: PASS (contains 'Hello World')."
  else "[TEST] Node server: FAIL (no 'Hello World').".

Definition django_verdict (page_text : string) : string :=
  if str_in "Hello World" page_text
  then "[TEST] Django server: PASS (contains 'Hello World')."
  else "[TEST] Django server: FAIL (no 'Hello World').".

(** The log after each stage was announced. *)
Definition log_install : list string :=
  ["[TEST] Installing Node dependencies with 'npm install'..."].
Definition log_node : list string :=
  log_install ++ ["[TEST] Starting Node server on port 3000..."].
Definition log_django : list string :=
  log_node ++
  ["[TEST] Applying Django migrations and starting server on port 8000..."].
Definition log_selenium : list string :=
  log_django ++
  ["[TEST] Setting up Selenium (headless Chrome) to test endpoints..."].

(** The events up to each stage. *)
Definition tr_install (r : child_result) : list event :=
  [EIsDir "code/node" true; ERun npm_install "code/node" r].
Definition tr_node (p : option Popen) : list event :=
  tr_install (Exited 0) ++ [EPopen npm_start "code/node" p].
Definition tr_django_dir (found : bool) : list event :=
  tr_node (Some 0) ++ [ESleep 3; EIsDir "code/django" found].
Definition tr_migrate (r : child_result) : list event :=
  tr_django_dir true ++ [ERun manage_migrate "code/django" r].
Definition tr_django (p : option Popen) : list event :=
  tr_migrate (Exited 0) ++ [EPopen manage_runserver "code/django" p].
Definition tr_both_up : list event := tr_django (Some 1) ++ [ESleep 3].

(** What the two servers' commands start themselves, by the [Popen]
    object they descend from. *)
Definition node_offspring (w : World) : list (Popen * string) :=
  map (pair 0) (offspring w npm_start "code/node").
Definition django_offspring (w : World) : list (Popen * string) :=
  map (pair 1) (offspring w manage_runserver "code/django").

(** The [try] block of step 4: what it did ([events]), what it added to
    the log, and the browser session it leaves behind. *)
Inductive Selenium (w : World) : list event -> list string -> browser -> Prop :=
| ChromeFails m :
    chrome_start w = Some m ->
    Selenium w [EChrome false] [selenium_error m] NoSession
| NodeGetFails m :
    chrome_start w = None ->
    page_load w node_url = Some m ->
    Selenium w [EChrome true; EGet node_url false]
      [selenium_error m] (SessionOpen None)
| NodeBodyFails m :
    chrome_start w = None ->
    page_load w node_url = None ->
    body_text w (Some node_url) = inr m ->
    Selenium w [EChrome true; EGet node_url true; EBody None]
      [selenium_error m] (SessionOpen (Some node_url))
| DjangoGetFails nt m :
    chrome_start w = None ->
    page_load w node_url = None ->
    body_text w (Some node_url) = inl nt ->
    page_load w django_url = Some m ->
    Selenium w
      [EChrome true; EGet node_url true; EBody (Some nt);
       EGet django_url false]
      [node_verdict nt; selenium_error m] (SessionOpen (Some node_url))
| DjangoBodyFails nt m :
    chrome_start w = None ->
    page_load w node_url = None ->
    body_text w (Some node_url) = inl nt ->
    page_load w django_url = None ->
    body_text w (Some django_url) = inr m ->
    Selenium w
      [EChrome true; EGet node_url true; EBody (Some nt);
       EGet django_url true; EBody None]
      [node_verdict nt; selenium_error m] (SessionOpen (Some django_url))
| QuitFails nt dt m :
    chrome_start w = None ->
    page_load w node_url = None ->
    body_text w (Some node_url) = inl nt ->
    page_load w django_url = None ->
    body_text w (Some django_url) = inl dt ->
    chrome_quit w = Some m ->
    Selenium w
      [EChrome true; EGet node_url true; EBody (Some nt);
       EGet django_url true; EBody (Some dt); EQuit false]
      [node_verdict nt; django_verdict dt; selenium_error m]
      (SessionOpen (Some django_url))
| BothChecked nt dt :
    chrome_start w = None ->
    page_load w node_url = None ->
    body_text w (Some node_url) = inl nt ->
    page_load w django_url = None ->
    body_text w (Some django_url) = inl dt ->
    chrome_quit w = None ->
    Selenium w
      [EChrome true; EGet node_url true; EBody (Some nt);
       EGet django_url true; EBody (Some dt); EQuit true]
      [node_verdict nt; django_verdict dt] SessionClosed.

(** The ways a call of [forward] ends, with the answers of the world
    that select each one. *)
Inductive Run (w : World) : result -> State -> Prop :=
| NodeDirMissing :
    isdir w "code/node" = false ->
    Run w (Returned "No /code/node folder found. Did you run SuperDeveloper?")
      {| trace := [EIsDir "code/node" false]; spawned := []; running := [];
         descendants := []; log := []; driver := NoSession |}
| InstallFails rc :
    isdir w "code/node" = true ->
    run_child w npm_install "code/node" = Exited rc ->
    rc <> 0%Z ->
    Run w
      (Returned ("Error installing node dependencies: "
                   ++ str_exc (CalledProcessError rc npm_install)))
      {| trace := tr_install (Exited rc); spawned := []; running := [];
         descendants := []; log := log_install; driver := NoSession |}
| InstallNotStarted m :
    isdir w "code/node" = true ->
    run_child w npm_install "code/node" = NotStarted m ->
    Run w (Threw (OSError m))
      {| trace := tr_install (NotStarted m); spawned := []; running := [];
         descendants := []; log := log_install; driver := NoSession |}
| NodeNotStarted m :
    isdir w "code/node" = true ->
    run_child w npm_install "code/node" = Exited 0 ->
    popen_child w npm_start "code/node" = Some m ->
    Run w (Threw (OSError m))
      {| trace := tr_node None; spawned := []; running := [];
         descendants := []; log := log_node; driver := NoSession |}
| DjangoDirMissing :
    isdir w "code/node" = true ->
    run_child w npm_install "code/node" = Exited 0 ->
    popen_child w npm_start "code/node" = None ->
    isdir w "code/django" = false ->
    Run w (Returned "No /code/django folder found. Did you run SuperDeveloper?")
      {| trace := tr_django_dir false ++ [EKill 0]; spawned := [0];
         running := []; descendants := node_offspring w;
         log := log_node; driver := NoSession |}
| MigrateFails rc :
    isdir w "code/node" = true ->
    run_child w npm_install "code/node" = Exited 0 ->
    popen_child w npm_start "code/node" = None ->
    isdir w "code/django" = true ->
    run_child w manage_migrate "code/django" = Exited rc ->
    rc <> 0%Z ->
    Run w
      (Returned ("Error setting up Django project: "
                   ++ str_exc (CalledProcessError rc manage_migrate)))
      {| trace := tr_migrate (Exited rc) ++ [EKill 0]; spawned := [0];
         running := []; descendants := node_offspring w;
         log := log_django; driver := NoSession |}
| MigrateNotStarted m :
    isdir w "code/node" = true ->
    run_child w npm_install "code/node" = Exited 0 ->
    popen_child w npm_start "code/node" = None ->
    isdir w "code/django" = true ->
    run_child w manage_migrate "code/django" = NotStarted m ->
    Run w (Threw (OSError m))
      {| trace := tr_migrate (NotStarted m); spawned := [0];
         running := [0]; descendants := node_offspring w;
         log := log_django; driver := NoSession |}
| DjangoNotStarted m :
    isdir w "code/node" = true ->
    run_child w npm_install "code/node" = Exited 0 ->
    popen_child w npm_start "code/node" = None ->
    isdir w "code/django" = true ->
    run_child w manage_migrate "code/django" = Exited 0 ->
    popen_child w manage_runserver "code/django" = Some m ->
    Run w (Threw (OSError m))
      {| trace := tr_django None; spawned := [0]; running := [0];
         descendants := node_offspring w;
         log := log_django; driver := NoSession |}
| Verified events lines session :
    isdir w "code/node" = true ->
    run_child w npm_install "code/node" = Exited 0 ->
    popen_child w npm_start "code/node" = None ->
    isdir w "code/django" = true ->
    run_child w manage_migrate "code/django" = Exited 0 ->
    popen_child w manage_runserver "code/django" = None ->
    Selenium w events lines session ->
    Run w
      (Returned (join newline
                   (log_selenium ++ lines ++ ["[TEST] Shutting down servers..."])))
      {| trace := tr_both_up ++ events ++ [EKill 0; EKill 1];
         spawned := [0; 1]; running := [];
         descendants := (node_offspring w ++ django_offspring w)%list;
         log := log_selenium ++ lines ++ ["[TEST] Shutting down servers..."];
         driver := session |}.

End Paths.
Import Paths.
(* ------------------------------------------------------------------ *)
(** ** Vocabulary of the properties *)

Module Props.

(** A child was started and runs on ([Popen] went through). *)
Definition is_launch (e : event) : bool :=
  match e with EPopen _ _ (Some _) => true | _ => false end.

(** A request was sent to a service.  [driver.get] is the only call of
    [forward] that sends one. *)
Definition is_request (e : event) : bool :=
  match e with EGet _ _ => true | _ => false end.

(** An operating-system process came to exist. *)
Definition creates_process (e : event) : bool :=
  match e with
  | ERun _ _ (Exited _) => true
  | EPopen _ _ (Some _) => true
  | EChrome true => true
  | _ => false
  end.

Definition no_process_created (tr : list event) : Prop :=
  forall e, In e tr -> creates_process e = false.

(** Readiness by polling: what follows a launch is a request to the
    service. *)
Definition polled_after_launch (tr : list event) : Prop :=
  forall i e, nth_error tr i = Some e -> is_launch e = true ->
    exists e', nth_error tr (S i) = Some e' /\ is_request e' = true.

(** The service at [url] answered a request sent before position [k]. *)
Definition confirmed_reachable (tr : list event) (url : string) (k : nat) : Prop :=
  exists i, i < k /\ nth_error tr i = Some (EGet url true).

(** Verification gating: the browser is sent only to a service that
    was confirmed reachable before. *)
Definition verification_gated (tr : list event) : Prop :=
  forall k url ok, nth_error tr k = Some (EGet url ok) ->
    confirmed_reachable tr url k.

(** The page at [url] was loaded and its body text was read. *)
Definition page_read (tr : list event) (url : string) : Prop :=
  exists k t, nth_error tr k = Some (EGet url true)
              /\ nth_error tr (S k) = Some (EBody (Some t)).

(** The log holds a PASS or FAIL line for the service named [svc]. *)
Definition verdict_logged (svc : string) (l : list string) : bool :=
  existsb (String.prefix ("[TEST] " ++ svc ++ " server: ")) l.

Definition visited (tr : list event) (url : string) : Prop :=
  exists ok, In (EGet url ok) tr.

(** Independence of the two checks: once Node's URL was tried, Django's
    is tried too. *)
Definition checks_independent (tr : list event) : Prop :=
  visited tr node_url -> visited tr django_url.

(** Steps of Node's launch stage and of Django's. *)
Definition is_node_launch_step (e : event) : bool :=
  match e with
  | ERun argv _ _ => argv_eqb argv npm_install
  | EPopen argv _ _ => argv_eqb argv npm_start
  | _ => false
  end.

Definition is_django_launch_step (e : event) : bool :=
  match e with
  | ERun argv _ _ => argv_eqb argv manage_migrate
  | EPopen argv _ _ => argv_eqb argv manage_runserver
  | _ => false
  end.

(** The run got as far as step 4 (the Selenium block). *)
Definition reached_selenium (tr : list event) : bool :=
  existsb (fun e => match e with EChrome _ => true | _ => false end) tr.

(** The four messages of the early returns. *)
Definition early_message (v : string) : Prop :=
  v = "No /code/node folder found. Did you run SuperDeveloper?"
  \/ (exists rc, v = "Error installing node dependencies: "
                      ++ str_exc (CalledProcessError rc npm_install))
  \/ v = "No /code/django folder found. Did you run SuperDeveloper?"
  \/ (exists rc, v = "Error setting up Django project: "
                      ++ str_exc (CalledProcessError rc manage_migrate)).

(** The answers of the world under which the Node server gets started. *)
Definition node_started (w : World) : Prop :=
  isdir w "code/node" = true
  /\ run_child w npm_install "code/node" = Exited 0
  /\ popen_child w npm_start "code/node" = None.

(** One of Node's two commands cannot be started, with message [m]. *)
Definition node_cannot_start (w : World) (m : string) : Prop :=
  isdir w "code/node" = true
  /\ (run_child w npm_install "code/node" = NotStarted m
      \/ (run_child w npm_install "code/node" = Exited 0
          /\ popen_child w npm_start "code/node" = Some m)).

(** The Node server gets started and then one of Django's two commands
    cannot be started, with message [m]. *)
Definition django_cannot_start (w : World) (m : string) : Prop :=
  node_started w
  /\ isdir w "code/django" = true
  /\ (run_child w manage_migrate "code/django" = NotStarted m
      \/ (run_child w manage_migrate "code/django" = Exited 0
          /\ popen_child w manage_runserver "code/django" = Some m)).

(** Both pages load and both body texts are read without an exception. *)
Definition checks_go_through (w : World) : Prop :=
  page_load w node_url = None
  /\ (exists nt, body_text w (Some node_url) = inl nt)
  /\ page_load w django_url = None
  /\ (exists dt, body_text w (Some django_url) = inl dt).

End Props.
Import Props.

(* ------------------------------------------------------------------ *)
(** ** More of Python: [str.strip] and [json.dumps] *)

Module PyLib.

(** The double quote character. *)
Definition dquote : string := String (ascii_of_nat 34) EmptyString.

(** [c.isspace()] for an ASCII character: tab, line feed, vertical tab,
    form feed, carriage return, the four separators 28 to 31, space. *)
Definition isspace (c : ascii) : bool :=
  let n := nat_of_ascii c in
  ((9 <=? n)%nat && (n <=? 13)%nat) || ((28 <=? n)%nat && (n <=? 32)%nat).

(** [s.lstrip()] *)
Fixpoint lstrip (s : string) : string :=
  match s with
  | EmptyString => EmptyString
  | String c rest => if isspace c then lstrip rest else s
  end.

(** [s.rstrip()] *)
Fixpoint rstrip (s : string) : string :=
  match s with
  | EmptyString => EmptyString
  | String c rest =>
      match rstrip rest with
      | EmptyString => if isspace c then EmptyString else String c EmptyString
      | kept => String c kept
      end
  end.

(** [s.strip()] *)
Definition strip (s : string) : string := rstrip (lstrip s).

(** [l.append(x)], as a new list. *)
Definition list_append {A : Type} (l : list A) (x : A) : list A := (l ++ [x])%list.

(** The number of times [c] occurs in [s]: [s.count(c)]. *)
Fixpoint count_char (c : ascii) (s : string) : nat :=
  match s with
  | EmptyString => 0
  | String d rest => (if Ascii.eqb c d then 1 else 0) + count_char c rest
  end.

(** The JSON values [SuperDeveloper] builds: strings and objects. *)
#[warnings="-register-all"]
Inductive json : Type :=
| JStr (s : string)
| JObj (members : list (string * json)).

(** A line break followed by the indentation of nesting depth [level],
    two spaces a level. *)
Fixpoint spaces (n : nat) : string :=
  match n with
  | O => EmptyString
  | S n' => String " " (spaces n')
  end.

Definition newline_indent (level : nat) : string :=
  newline ++ spaces (2 * level).

(** [json.dumps(v, indent=2)] at nesting depth [level], for strings that
    hold no character JSON escapes (quote, backslash, control and
    non-ASCII characters). *)
Fixpoint dumps_at (level : nat) (v : json) : string :=
  match v with
  | JStr s => dquote ++ s ++ dquote
  | JObj [] => "{}"
  | JObj members =>
      "{" ++ newline_indent (S level)
        ++ join ("," ++ newline_indent (S level))
             (map (fun kv =>
                     match kv with
                     | (k, x) => dquote ++ k ++ dquote ++ ": " ++ dumps_at (S level) x
                     end) members)
        ++ newline_indent level ++ "}"
  end.

Definition json_dumps (v : json) : string := dumps_at 0 v.

End PyLib.
Import PyLib.

(* ------------------------------------------------------------------ *)
(** ** RequirementsManager.forward *)

Definition RequirementsManager_forward (user_request : string) : string :=
  let lines : list string := []%list in
  let lines := list_append lines ("User Request: '" ++ user_request ++ "'") in
  let lines := list_append lines ("Requirements:") in
  let lines := list_append lines ("1. Create a minimal Node.js Express server that returns 'Hello World' at '/' on port 3000.") in
  let lines := list_append lines ("2. Create a minimal Django project that returns 'Hello World' at '/' on port 8000.") in
  let lines := list_append lines ("3. Both projects should be in '/code': node/ and django/ subfolders.") in
  let lines := list_append lines ("4. Use Selenium to test each running server in headless Chrome, confirming 'Hello World'.") in
  let lines := list_append lines ("5. Provide minimal documentation and run instructions.") in
  join newline lines.

(* ------------------------------------------------------------------ *)
(** ** SuperDeveloper.forward *)

(** The answers of the file system and of [django-admin].  [None] is the
    call going through, [Some m] is the call raising [OSError] with
    message [m]. *)
Record DevWorld : Type := {
  makedirs : string -> option string;
  write_text : string -> string -> option string;
  path_exists : string -> bool;
  run_admin : list string -> string -> child_result
}.

Inductive dev_event : Type :=
| DMakedirs (path : string) (done : bool)
| DWrite (path : string) (content : string) (done : bool)
| DExists (path : string) (found : bool)
| DRun (argv : list string) (cwd : string) (r : child_result).

(** Statements of the developer: the state is what it did so far. *)
Definition DevM (A : Type) : Type := M DevWorld (list dev_event) A.

(** [os.makedirs(path, exist_ok=True)] *)
Definition os_makedirs (path : string) : DevM unit :=
  fun w s =>
    match makedirs w path with
    | None => (Normal tt, list_append s (DMakedirs path true))
    | Some m => (Raise (OSError m), list_append s (DMakedirs path false))
    end.

(** [with open(path, "w", encoding="utf-8") as f: f.write(content)] *)
Definition write_file (path content : string) : DevM unit :=
  fun w s =>
    match write_text w path content with
    | None => (Normal tt, list_append s (DWrite path content true))
    | Some m => (Raise (OSError m), list_append s (DWrite path content false))
    end.

(** [os.path.exists(path)] *)
Definition os_path_exists (path : string) : DevM bool :=
  fun w s => let b := path_exists w path in (Normal b, list_append s (DExists path b)).

(** [subprocess.run(argv, cwd=cwd, check=True)] *)
Definition dev_subprocess_run (argv : list string) (cwd : string) : DevM unit :=
  fun w s =>
    let r := run_admin w argv cwd in
    let s' := list_append s (DRun argv cwd r) in
    match r with
    | Exited rc =>
        if (rc =? 0)%Z then (Normal tt, s')
        else (Raise (CalledProcessError rc argv), s')
    | NotStarted m => (Raise (OSError m), s')
    end.

Definition package_json : json :=
  JObj [ ("name", JStr "hello-world-node");
         ("version", JStr "1.0.0");
         ("scripts", JObj [("start", JStr "node index.js")]);
         ("dependencies", JObj [("express", JStr "^4.18.2")]) ].

(** The raw literal of [node_js], line by line, before [.strip()]. *)
Definition node_js_literal : string :=
  join newline
    [ "";
      "const express = require('express');";
      "const app = express();";
      "const port = 3000;";
      "";
      "app.get('/', (req, res) => {";
      "  res.send('Hello World');";
      "});";
      "";
      "app.listen(port, () => {";
      "  console.log(`Node Express server running on port ${port}`);";
      "});";
      "" ].

Definition node_js : string := strip node_js_literal.

(** The raw literal of [django_urls_contents], before [.strip()]. *)
Definition django_urls_literal : string :=
  join newline
    [ "";
      "from django.contrib import admin";
      "from django.urls import path";
      "from django.http import HttpResponse";
      "";
      "def hello_world(request):";
      "    return HttpResponse(" ++ dquote ++ "Hello World" ++ dquote ++ ")";
      "";
      "urlpatterns = [";
      "    path('admin/', admin.site.urls),";
      "    path('', hello_world, name='hello_world'),";
      "]";
      "" ].

Definition django_urls_contents : string := strip django_urls_literal.

Definition startproject (project_name : string) : list string :=
  ["django-admin"; "startproject"; project_name; "."].

Definition developer_success : string :=
  join newline
    [ "Created Node Express project in /code/node";
      "Created Django project in /code/django";
      "Both should serve 'Hello World' at their respective '/' routes." ].

Definition SuperDeveloper_forward (requirements : string) : DevM Empty_set :=
  let node_dir := os_path_join "code" "node" in
  os_makedirs node_dir ;;
  write_file (os_path_join node_dir "package.json") (json_dumps package_json) ;;
  write_file (os_path_join node_dir "index.js") node_js ;;
  let django_dir := os_path_join "code" "django" in
  os_makedirs django_dir ;;
  let project_name := "helloproject" in
  let manage_py_path :=
    os_path_join (os_path_join django_dir project_name) "manage.py" in
  found <- os_path_exists manage_py_path ;;
  (if negb found
   then try_except
          (dev_subprocess_run (startproject project_name) django_dir)
          is_CalledProcessError
          (fun e => py_return ("Error creating Django project: " ++ str_exc e))
   else ret tt) ;;
  let django_urls_path :=
    os_path_join (os_path_join django_dir project_name) "urls.py" in
  write_file django_urls_path django_urls_contents ;;
  py_return developer_success.

(** One call of the tool, starting with nothing done. *)
Definition develop (requirements : string) (w : DevWorld)
    : result * list dev_event :=
  call (SuperDeveloper_forward requirements) w [].

(** A step of the developer that did not go through. *)
Definition dev_failed (e : dev_event) : bool :=
  match e with
  | DMakedirs _ done => negb done
  | DWrite _ _ done => negb done
  | DExists _ _ => false
  | DRun _ _ (Exited rc) => negb (rc =? 0)%Z
  | DRun _ _ (NotStarted _) => true
  end.

(** The path an event touches: the directory or file of a file-system
    call, the working directory of a command. *)
Definition dev_path (e : dev_event) : string :=
  match e with
  | DMakedirs p _ => p
  | DWrite p _ _ => p
  | DExists p _ => p
  | DRun _ cwd _ => cwd
  end.

Module DevWorlds.

(** A fresh machine: everything can be written, no project exists yet,
    [django-admin] works. *)
Definition fresh : DevWorld :=
  {| makedirs := fun _ => None;
     write_text := fun _ _ => None;
     path_exists := fun _ => false;
     run_admin := fun _ _ => Exited 0 |}.

(** The Django project is there already. *)
Definition project_exists : DevWorld :=
  {| makedirs := fun _ => None;
     write_text := fun _ _ => None;
     path_exists := fun _ => true;
     run_admin := fun _ _ => Exited 0 |}.

(** [django-admin startproject] exits with status 1. *)
Definition admin_fails : DevWorld :=
  {| makedirs := fun _ => None;
     write_text := fun _ _ => None;
     path_exists := fun _ => false;
     run_admin := fun _ _ => Exited 1 |}.

(** [code/node/index.js] cannot be written. *)
Definition index_js_read_only : DevWorld :=
  {| makedirs := fun _ => None;
     write_text := fun p _ =>
       if String.eqb p "code/node/index.js"
       then Some "[Errno 13] Permission denied: 'code/node/index.js'"
       else None;
     path_exists := fun _ => false;
     run_admin := fun _ _ => Exited 0 |}.

End DevWorlds.
(* ------------------------------------------------------------------ *)
(** ** Facts about strings *)

Section StringFacts.

Lemma has_char_app (c : ascii) (a b : string) :
  has_char c (a ++ b) = has_char c a || has_char c b.
Proof.
  induction a as [|d a IH]; simpl; [reflexivity|].
  rewrite IH. now rewrite orb_assoc.
Qed.

(** A text without the first character of [needle] does not contain
    [needle]. *)
Lemma str_in_first_char (c : ascii) (needle hay : string) :
  has_char c hay = false -> str_in (String c needle) hay = false.
Proof.
  induction hay as [|d hay IH]; simpl; intros H; [reflexivity|].
  apply orb_false_iff in H. destruct H as [Hcd Hrest].
  rewrite (IH Hrest).
  destruct (ascii_dec c d) as [->|_]; [|reflexivity].
  now rewrite Ascii.eqb_refl in Hcd.
Qed.

Lemma digits_no_bracket (d : Decimal.uint) :
  has_char "[" (NilEmpty.string_of_uint d) = false.
Proof. induction d; simpl; auto. Qed.

Lemma str_int_no_bracket (z : Z) : has_char "[" (str_int z) = false.
Proof.
  unfold str_int, NilZero.string_of_int, NilZero.string_of_uint.
  destruct (Z.to_int z) as [d|d]; destruct d; simpl;
    auto using digits_no_bracket.
Qed.

Lemma signal_name_in tbl n name :
  signal_name tbl n = Some name -> In name (map snd tbl).
Proof.
  induction tbl as [|[k nm] tbl IH]; simpl; [discriminate|].
  destruct (Z.eqb k n); [intros [= ->]; now left | auto].
Qed.

Lemma signal_name_no_bracket n name :
  signal_name Signals n = Some name -> has_char "[" name = false.
Proof.
  intros H. apply signal_name_in in H.
  assert (Hall : forallb (fun s => negb (has_char "[" s)) (map snd Signals) = true)
    by reflexivity.
  rewrite forallb_forall in Hall. specialize (Hall _ H).
  now apply negb_true_iff in Hall.
Qed.

End StringFacts.

Arguments str_CalledProcessError : simpl never.

(** The text of a [CalledProcessError] is the quoted command followed by a
    tail in which no square bracket occurs. *)
Lemma str_CalledProcessError_tail (rc : Z) (cmd : list string) :
  exists q, has_char "[" q = false /\
            str_CalledProcessError rc cmd = "Command '" ++ str_list cmd ++ "' " ++ q.
Proof.
  unfold str_CalledProcessError.
  destruct (rc <? 0)%Z.
  - destruct (signal_name Signals (- rc)) as [name|] eqn:Hn.
    + exists ("died with <Signals." ++ name ++ ": " ++ str_int (- rc) ++ ">.").
      split; [|reflexivity].
      change (has_char "[" (name ++ ": " ++ str_int (- rc) ++ ">.") = false).
      rewrite !has_char_app, (signal_name_no_bracket _ _ Hn), str_int_no_bracket.
      reflexivity.
    + exists ("died with unknown signal " ++ str_int (- rc) ++ ".").
      split; [|reflexivity].
      change (has_char "[" (str_int (- rc) ++ ".") = false).
      now rewrite has_char_app, str_int_no_bracket.
  - exists ("returned non-zero exit status " ++ str_int rc ++ ".").
    split; [|reflexivity].
    change (has_char "[" (str_int rc ++ ".") = false).
    now rewrite has_char_app, str_int_no_bracket.
Qed.

(* ------------------------------------------------------------------ *)
(** ** Case analysis of a run *)

(** Unfold one run and split on every answer of the world that the run
    consults, in program order.  Each remaining goal is one path through
    [forward], with its final state computed. *)
Ltac unfold_run :=
  unfold run, call, forward, bind, try_except, os_path_isdir, subprocess_run,
    subprocess_Popen, time_sleep, Popen_kill, log_append, get_log,
    webdriver_Chrome, driver_get, driver_body_text, driver_quit, py_return, ret;
  simpl.

Ltac split_world w :=
  repeat (match goal with
          | |- context [isdir w ?p] => destruct (isdir w p) eqn:?
          | |- context [run_child w ?a ?d] => destruct (run_child w a d) eqn:?
          | |- context [Z.eqb ?rc 0%Z] => destruct (Z.eqb rc 0%Z) eqn:?
          | |- context [popen_child w ?a ?d] => destruct (popen_child w a d) eqn:?
          | |- context [chrome_start w] => destruct (chrome_start w) eqn:?
          | |- context [page_load w ?u] => destruct (page_load w u) eqn:?
          | |- context [body_text w ?p] => destruct (body_text w p) eqn:?
          | |- context [str_in "Hello World" ?t] =>
              destruct (str_in "Hello World" t) eqn:?
          | |- context [chrome_quit w] => destruct (chrome_quit w) eqn:?
          end; simpl).

Ltac run_cases w := unfold_run; split_world w.

(** Turn the tests [rc == 0] met on the path into facts about [rc]. *)
Ltac exit_codes :=
  repeat match goal with
         | H : Z.eqb _ 0%Z = true |- _ => apply Z.eqb_eq in H; subst
         | H : Z.eqb _ 0%Z = false |- _ => apply Z.eqb_neq in H
         end.


Lemma Run_eq (w : World) (r r' : result) (st st' : State) :
  Run w r' st' -> r' = r -> st' = st -> Run w r st.
Proof. now intros H <- <-. Qed.

Ltac verdicts :=
  unfold node_verdict, django_verdict;
  repeat match goal with
         | H : str_in "Hello World" _ = _ |- _ => rewrite H
         end.

(** Every call of [forward] takes one of the paths above. *)
Lemma run_path (req : string) (w : World) (r : result) (st : State) :
  run req w = (r, st) -> Run w r st.
Proof.
  run_cases w; intros [= <- <-]; exit_codes;
    (eapply Run_eq;
     [ first [ solve [econstructor; solve [eauto | econstructor; eauto]] ]
     | verdicts; reflexivity
     | verdicts; reflexivity ]).
Qed.

(* ------------------------------------------------------------------ *)
(** ** Reading a trace *)

(** Split a hypothesis [In e [e1; ...; en]] into its equations, dropping
    those between different events. *)
Ltac in_trace H :=
  simpl in H;
  repeat (destruct H as [H|H]; [try discriminate H|]);
  try contradiction.

(** Split a hypothesis [nth_error [e1; ...; en] i = Some e] by position. *)
Ltac nth_cases H i :=
  simpl in H;
  repeat (first [ discriminate H
                | destruct i as [|i]; simpl in H;
                  [ try (injection H; intros; subst) | ] ]).

(** Prove [In e [e1; ...; en]] by pointing at the element. *)
Ltac in_list := simpl; solve [repeat (first [left; reflexivity | right])].

Ltac django_visited :=
  first [ exists true; in_list | exists false; in_list ].

(** One goal per path of the run [H]. *)
Ltac paths H :=
  apply run_path in H;
  destruct H as [ ? | ? ? ? ? | ? ? ? | ? ? ? ? | ? ? ? ? | ? ? ? ? ? ? ?
                | ? ? ? ? ? ? | ? ? ? ? ? ? ? | ? ? ? ? ? ? ? ? ? HSel ];
  [ .. | destruct HSel ].

(* ------------------------------------------------------------------ *)
(** ** Children left behind *)

(** Every run that returns has killed each [Popen] child it started. *)
Lemma returned_run_kills_children (req : string) (w : World) (v : string)
    (st : State) :
  run req w = (Returned v, st) -> running st = [].
Proof.
  intros H. apply run_path in H. inversion H; reflexivity.
Qed.

(** A [Popen] object is left without [kill()] having been called on it
    exactly when the Node server got started and one of Django's two
    commands could not be started; it is then the object of [npm start],
    alone, and the [OSError] of the failed start leaves [forward]. *)
Theorem child_left_iff_django_cannot_start (req : string) (w : World)
    (r : result) (st : State) :
  run req w = (r, st) ->
  (running st = [] \/ running st = [0])
  /\ (running st = [0] <-> exists m, django_cannot_start w m)
  /\ (forall m, django_cannot_start w m -> r = Threw (OSError m)).
Proof.
  intros H. apply run_path in H.
  unfold django_cannot_start, node_started.
  destruct H; simpl; (split; [auto|]); split.
  all: try (split; [discriminate|]).
  all: try (intros (m' & (Ha & Hb & Hc) & Hd & [He|(He & Hf)]); congruence).
  all: try (intros m' ((Ha & Hb & Hc) & Hd & [He|(He & Hf)]); congruence).
  all: split; [intros _|reflexivity]; eexists; repeat split; eauto.
Qed.

Lemma child_left_iff_django_cannot_start_witness :
  django_cannot_start Worlds.python_not_installed
    "[Errno 2] No such file or directory: 'python'"
  /\ running (snd (run "" Worlds.python_not_installed)) = [0]
  /\ fst (run "" Worlds.python_not_installed)
     = Threw (OSError "[Errno 2] No such file or directory: 'python'").
Proof.
  assert (Hw : django_cannot_start Worlds.python_not_installed
                 "[Errno 2] No such file or directory: 'python'").
  { repeat split. left. reflexivity. }
  destruct (child_left_iff_django_cannot_start "" Worlds.python_not_installed
              (fst (run "" Worlds.python_not_installed))
              (snd (run "" Worlds.python_not_installed)) eq_refl)
    as (_ & Hiff & Hthrow).
  split; [exact Hw|]. split.
  - apply (proj2 Hiff). eexists. exact Hw.
  - exact (Hthrow _ Hw).
Defined.

(** No step of [forward] reaches what its children started: whatever the
    run does, every process started by [npm start] or by
    [manage.py runserver] is still there when the run ends. *)
Lemma descendants_never_signalled (req : string) (w : World) (r : result)
    (st : State) :
  run req w = (r, st) ->
  descendants st =
    ((if existsb (Nat.eqb 0) (spawned st) then node_offspring w else [])
     ++ (if existsb (Nat.eqb 1) (spawned st) then django_offspring w else []))%list.
Proof.
  intros H. paths H; simpl; rewrite ?app_nil_r; reflexivity.
Qed.

(** C1 (no orphan processes), at a machine without a [python] executable:
    [manage.py migrate] cannot be started, the [FileNotFoundError] passes
    the [except subprocess.CalledProcessError] clause and leaves [forward];
    the Node server started before is never killed. *)
Theorem node_left_running_when_python_missing :
  fst (run "" Worlds.python_not_installed)
    = Threw (OSError "[Errno 2] No such file or directory: 'python'")
  /\ spawned (snd (run "" Worlds.python_not_installed)) = [0]
  /\ running (snd (run "" Worlds.python_not_installed)) = [0]
  /\ ~ In (EKill 0) (trace (snd (run "" Worlds.python_not_installed))).
Proof.
  vm_compute. repeat split.
  intros H. repeat (destruct H as [H|H]; [discriminate H|]). exact H.
Qed.

(* ------------------------------------------------------------------ *)
(** ** Exceptions that leave [forward] *)

(** An exception leaves [forward] exactly when one of the four child
    commands cannot be started on the path the run takes, and it is that
    [OSError]; in every other case a string is returned. *)
Theorem run_raises_iff_child_not_started (req : string) (w : World)
    (r : result) (st : State) :
  run req w = (r, st) ->
  (forall e, r = Threw e <->
     exists m, e = OSError m
               /\ (node_cannot_start w m \/ django_cannot_start w m))
  /\ ((exists v, r = Returned v) <->
      ~ exists m, node_cannot_start w m \/ django_cannot_start w m).
Proof.
  intros H. apply run_path in H.
  unfold node_cannot_start, django_cannot_start, node_started.
  destruct H; split.
  all: try (intros e; split;
            [ discriminate
            | intros (m' & _ & [(Ha & [Hb|(Hb & Hc)])
                               |((Ha & Hb & Hc) & Hd & [He|(He & Hf)])]);
              congruence ]).
  all: try (split;
            [ intros _ (m' & [(Ha & [Hb|(Hb & Hc)])
                             |((Ha & Hb & Hc) & Hd & [He|(He & Hf)])]);
              congruence
            | intros _; eexists; reflexivity ]).
  all: try (intros e; split;
            [ intros [= <-]; eexists; split; [reflexivity|]; tauto
            | intros (m' & -> & [(Ha & [Hb|(Hb & Hc)])
                                |((Ha & Hb & Hc) & Hd & [He|(He & Hf)])]);
              congruence ]).
  all: split; [intros (v & Hv); discriminate Hv|].
  all: intros Hno; exfalso; apply Hno;
       match goal with
       | Hm : _ = NotStarted ?m |- _ => exists m; tauto
       | Hm : popen_child _ _ _ = Some ?m |- _ => exists m; tauto
       end.
Qed.

Lemma run_raises_iff_child_not_started_witness :
  node_cannot_start Worlds.npm_not_installed
    "[Errno 2] No such file or directory: 'npm'"
  /\ fst (run "" Worlds.npm_not_installed)
     = Threw (OSError "[Errno 2] No such file or directory: 'npm'").
Proof.
  assert (Hw : node_cannot_start Worlds.npm_not_installed
                 "[Errno 2] No such file or directory: 'npm'").
  { split; [reflexivity|]. left. reflexivity. }
  split; [exact Hw|].
  apply (proj2 (proj1 (run_raises_iff_child_not_started ""
                         Worlds.npm_not_installed
                         (fst (run "" Worlds.npm_not_installed))
                         (snd (run "" Worlds.npm_not_installed)) eq_refl)
                  (OSError "[Errno 2] No such file or directory: 'npm'"))).
  eexists. split; [reflexivity|]. left. exact Hw.
Defined.

(** C3 (a report is always returned), at a machine without [npm]:
    [subprocess.run] raises [FileNotFoundError], which is not a
    [CalledProcessError]; it leaves [forward] and the caller gets no
    string. *)
Theorem forward_raises_when_npm_missing :
  fst (run "" Worlds.npm_not_installed)
    = Threw (OSError "[Errno 2] No such file or directory: 'npm'")
  /\ log (snd (run "" Worlds.npm_not_installed))
     = ["[TEST] Installing Node dependencies with 'npm install'..."].
Proof. vm_compute. split; reflexivity. Qed.

(* ------------------------------------------------------------------ *)
(** ** The browser session *)

(** With the browser started, [driver.quit()] is called exactly when both
    pages were loaded and both body texts read without an exception.  If
    one of these four calls raises, the session is still open when
    [forward] returns; if none does and [quit] goes through, it is
    closed. *)
Theorem quit_called_iff_checks_go_through (req : string) (w : World)
    (r : result) (st : State) :
  run req w = (r, st) ->
  In (EChrome true) (trace st) ->
  ((exists done, In (EQuit done) (trace st)) <-> checks_go_through w)
  /\ (checks_go_through w -> chrome_quit w = None -> driver st = SessionClosed)
  /\ (~ checks_go_through w -> exists page, driver st = SessionOpen page).
Proof.
  intros H Hchrome. unfold checks_go_through.
  paths H; in_trace Hchrome; clear Hchrome.
  all: split; [split|split].
  all: lazymatch goal with
       | |- (exists done, In _ _) -> _ =>
           intros (done & Hin); in_trace Hin; repeat split; eauto
       | |- ~ _ -> _ =>
           intros Hnot;
           first [ eexists; reflexivity
                 | exfalso; apply Hnot; repeat split; eauto ]
       | |- _ -> _ -> driver _ = SessionClosed =>
           intros (Ha & (nt' & Hb) & Hc & (dt' & Hd)) Hq;
           first [ reflexivity | congruence ]
       | |- _ -> exists done, In _ _ =>
           intros (Ha & (nt' & Hb) & Hc & (dt' & Hd));
           first [ congruence | exists true; in_list | exists false; in_list ]
       end.
Qed.

Lemma quit_called_iff_checks_go_through_witness :
  In (EChrome true) (trace (snd (run "" Worlds.node_not_listening)))
  /\ ~ checks_go_through Worlds.node_not_listening
  /\ (forall done, ~ In (EQuit done) (trace (snd (run "" Worlds.node_not_listening))))
  /\ exists page, driver (snd (run "" Worlds.node_not_listening)) = SessionOpen page.
Proof.
  assert (Hc : In (EChrome true) (trace (snd (run "" Worlds.node_not_listening))))
    by (vm_compute; tauto).
  assert (Hn : ~ checks_go_through Worlds.node_not_listening).
  { intros (Ha & _). discriminate Ha. }
  destruct (quit_called_iff_checks_go_through "" Worlds.node_not_listening
              (fst (run "" Worlds.node_not_listening))
              (snd (run "" Worlds.node_not_listening)) eq_refl Hc)
    as (Hiff & _ & Hopen).
  split; [exact Hc|]. split; [exact Hn|]. split.
  - intros done Hin. apply Hn. apply (proj1 Hiff). exists done. exact Hin.
  - exact (Hopen Hn).
Defined.

(** C7 (the browser is closed on every path), when the Node server does
    not answer: [driver.get] raises inside the [try], the handler only
    logs, [driver.quit()] is never called and the session stays open. *)
Theorem browser_left_open_when_navigation_fails :
  fst (run "" Worlds.node_not_listening)
    = Returned (join newline
        [ "[TEST] Installing Node dependencies with 'npm install'...";
          "[TEST] Starting Node server on port 3000...";
          "[TEST] Applying Django migrations and starting server on port 8000...";
          "[TEST] Setting up Selenium (headless Chrome) to test endpoints...";
          "[TEST] Selenium error: Message: unknown error: net::ERR_CONNECTION_REFUSED";
          "[TEST] Shutting down servers..." ])
  /\ driver (snd (run "" Worlds.node_not_listening)) = SessionOpen None
  /\ In (EChrome true) (trace (snd (run "" Worlds.node_not_listening)))
  /\ forall done, ~ In (EQuit done) (trace (snd (run "" Worlds.node_not_listening))).
Proof.
  vm_compute. repeat split; [tauto|].
  intros done H. repeat (destruct H as [H|H]; [discriminate H|]). exact H.
Qed.

(* ------------------------------------------------------------------ *)
(** ** Readiness of a started server *)

(** C2 as stated fails: in the run where everything works, what follows
    the start of the Node server is a pause, not a request. *)
Lemma readiness_is_not_polled :
  ~ polled_after_launch (trace (snd (run "" Worlds.all_up))).
Proof.
  intros H.
  destruct (H 2 (EPopen npm_start "code/node" (Some 0)) eq_refl eq_refl)
    as (e' & He' & Hreq).
  vm_compute in He'. injection He' as <-. discriminate Hreq.
Qed.

(** C2, amended.  Readiness is not probed: each server that was started is
    followed at once by [time.sleep(3)], and no request is sent to any
    service before the browser of the verification step has been
    started. *)
Theorem launch_followed_by_fixed_sleep (req : string) (w : World)
    (r : result) (st : State) :
  run req w = (r, st) ->
  (forall i e, nth_error (trace st) i = Some e -> is_launch e = true ->
     nth_error (trace st) (S i) = Some (ESleep 3))
  /\ (forall j e, nth_error (trace st) j = Some e -> is_request e = true ->
        exists k, k < j /\ nth_error (trace st) k = Some (EChrome true)).
Proof.
  intros H. paths H; split.
  all: try (intros i e Hi He; nth_cases Hi i; try discriminate He; reflexivity).
  all: intros j e Hj He; nth_cases Hj j; try discriminate He.
  all: exists 8; split; [lia | reflexivity].
Qed.

Lemma launch_followed_by_fixed_sleep_witness :
  nth_error (trace (snd (run "" Worlds.all_up))) 2
    = Some (EPopen npm_start "code/node" (Some 0))
  /\ is_launch (EPopen npm_start "code/node" (Some 0)) = true
  /\ nth_error (trace (snd (run "" Worlds.all_up))) 3 = Some (ESleep 3).
Proof.
  split; [reflexivity|]. split; [reflexivity|].
  exact (proj1 (launch_followed_by_fixed_sleep "" Worlds.all_up
                  (fst (run "" Worlds.all_up)) (snd (run "" Worlds.all_up))
                  eq_refl)
           2 (EPopen npm_start "code/node" (Some 0)) eq_refl eq_refl).
Defined.

(* ------------------------------------------------------------------ *)
(** ** What a verdict rests on *)

(** C4 as stated fails: when everything works a verdict for Node is
    logged, and the navigation it rests on was preceded by no answered
    request to Node's URL. *)
Lemma verification_is_not_gated :
  verdict_logged "Node" (log (snd (run "" Worlds.all_up))) = true
  /\ ~ verification_gated (trace (snd (run "" Worlds.all_up))).
Proof.
  split; [reflexivity|].
  intros H.
  destruct (H 9 node_url true eq_refl) as (i & Hi & Hget).
  vm_compute in Hget.
  do 9 (destruct i as [|i]; [discriminate Hget|]). lia.
Qed.

(** C4, amended.  There is no health check: every navigation of the
    browser is the first request ever sent to its URL, answered or not.
    A verdict for a service is logged exactly when the page at its URL was
    loaded and its body text read, both without an exception. *)
Theorem verdict_follows_first_request (req : string) (w : World)
    (r : result) (st : State) :
  run req w = (r, st) ->
  (forall k url ok, nth_error (trace st) k = Some (EGet url ok) ->
     forall i ok', i < k -> nth_error (trace st) i <> Some (EGet url ok'))
  /\ (verdict_logged "Node" (log st) = true <-> page_read (trace st) node_url)
  /\ (verdict_logged "Django" (log st) = true <-> page_read (trace st) django_url).
Proof.
  intros H. paths H; (split; [|split]).
  all: try (intros k url ok Hk i ok' Hlt Hi; nth_cases Hk k;
            nth_cases Hi i; lia).
  all: unfold page_read, node_verdict, django_verdict; simpl;
    repeat match goal with
           | |- context [str_in "Hello World" ?t] =>
               destruct (str_in "Hello World" t)
           end; simpl.
  all: split;
    [ try discriminate
    | try (intros (k & t & Hk & Hk'); nth_cases Hk k; discriminate Hk') ].
  all: intros _.
  all: first [ reflexivity
             | exists 9; eexists; split; reflexivity
             | exists 11; eexists; split; reflexivity ].
Qed.

Lemma verdict_follows_first_request_witness :
  nth_error (trace (snd (run "" Worlds.all_up))) 9 = Some (EGet node_url true)
  /\ (forall i ok', i < 9 ->
        nth_error (trace (snd (run "" Worlds.all_up))) i
        <> Some (EGet node_url ok'))
  /\ ~ confirmed_reachable (trace (snd (run "" Worlds.all_up))) node_url 9
  /\ (verdict_logged "Node" (log (snd (run "" Worlds.all_up))) = true
      <-> page_read (trace (snd (run "" Worlds.all_up))) node_url).
Proof.
  destruct (verdict_follows_first_request "" Worlds.all_up
              (fst (run "" Worlds.all_up)) (snd (run "" Worlds.all_up))
              eq_refl) as (Hfirst & Hnode & _).
  split; [reflexivity|]. split; [exact (Hfirst 9 node_url true eq_refl)|].
  split; [|exact Hnode].
  intros (i & Hlt & Hi).
  exact (Hfirst 9 node_url true eq_refl i true Hlt Hi).
Defined.

(* ------------------------------------------------------------------ *)
(** ** Missing project directories *)

(** C5 as stated fails: [code/django] is looked for only after the Node
    server was started, so a run that ends on the missing Django directory
    has created processes. *)
Lemma django_dir_checked_after_node_started :
  (isdir Worlds.django_dir_missing "code/node" = false
   \/ isdir Worlds.django_dir_missing "code/django" = false)
  /\ ~ no_process_created (trace (snd (run "" Worlds.django_dir_missing))).
Proof.
  split; [right; reflexivity|].
  intros H.
  specialize (H (EPopen npm_start "code/node" (Some 0))).
  assert (Hin : In (EPopen npm_start "code/node" (Some 0))
                  (trace (snd (run "" Worlds.django_dir_missing))))
    by (vm_compute; tauto).
  specialize (H Hin). discriminate H.
Qed.

(** C5, amended.  If [code/node] is missing the run returns its message at
    once and no process was created.  If [code/django] is missing, that is
    found only after [npm install] has run and [npm start] has been
    started and waited for; [kill()] is then called on the object of
    [npm start], as the last step, and the message is returned. *)
Theorem missing_directory_paths (req : string) (w : World) (r : result)
    (st : State) :
  run req w = (r, st) ->
  (isdir w "code/node" = false ->
     r = Returned "No /code/node folder found. Did you run SuperDeveloper?"
     /\ trace st = [EIsDir "code/node" false]
     /\ no_process_created (trace st)
     /\ spawned st = [])
  /\ (isdir w "code/node" = true ->
      run_child w npm_install "code/node" = Exited 0 ->
      popen_child w npm_start "code/node" = None ->
      isdir w "code/django" = false ->
      r = Returned "No /code/django folder found. Did you run SuperDeveloper?"
      /\ trace st =
           [ EIsDir "code/node" true;
             ERun npm_install "code/node" (Exited 0);
             EPopen npm_start "code/node" (Some 0);
             ESleep 3;
             EIsDir "code/django" false;
             EKill 0 ]
      /\ spawned st = [0]).
Proof.
  intros H. apply run_path in H.
  destruct H; split; intros; try congruence.
  - repeat split; try reflexivity.
    intros e [<-|[]]. reflexivity.
  - repeat split; reflexivity.
Qed.

Lemma missing_directory_paths_witness :
  isdir Worlds.django_dir_missing "code/node" = true
  /\ run_child Worlds.django_dir_missing npm_install "code/node" = Exited 0
  /\ popen_child Worlds.django_dir_missing npm_start "code/node" = None
  /\ isdir Worlds.django_dir_missing "code/django" = false
  /\ fst (run "" Worlds.django_dir_missing)
       = Returned "No /code/django folder found. Did you run SuperDeveloper?"
  /\ nth_error (trace (snd (run "" Worlds.django_dir_missing))) 5
     = Some (EKill 0)
  /\ spawned (snd (run "" Worlds.django_dir_missing)) = [0].
Proof.
  destruct (proj2 (missing_directory_paths "" Worlds.django_dir_missing
                     (fst (run "" Worlds.django_dir_missing))
                     (snd (run "" Worlds.django_dir_missing)) eq_refl)
              eq_refl eq_refl eq_refl eq_refl) as (Hr & Ht & Hs).
  do 4 (split; [reflexivity|]).
  split; [exact Hr|]. split; [rewrite Ht; reflexivity | exact Hs].
Defined.

(* ------------------------------------------------------------------ *)
(** ** Django's migration fails after Node was started *)

(** C6 (the running Node process is killed when the migration fails), on
    a machine where [npm start] runs the start script [node index.js] of
    [package.json] as a process of its own: [node_process] is the object
    of [npm start], [node_process.kill()] signals that one process, and
    the run returns with [node index.js], the server, never signalled. *)
Theorem node_server_outlives_kill_of_npm :
  fst (run "" Worlds.migrate_fails_under_npm)
    = Returned "Error setting up Django project: Command '['python', 'manage.py', 'migrate']' returned non-zero exit status 1."
  /\ trace (snd (run "" Worlds.migrate_fails_under_npm)) =
       [ EIsDir "code/node" true;
         ERun npm_install "code/node" (Exited 0);
         EPopen npm_start "code/node" (Some 0);
         ESleep 3;
         EIsDir "code/django" true;
         ERun manage_migrate "code/django" (Exited 1);
         EKill 0 ]
  /\ running (snd (run "" Worlds.migrate_fails_under_npm)) = []
  /\ descendants (snd (run "" Worlds.migrate_fails_under_npm))
     = [(0, "node index.js")].
Proof. vm_compute. repeat split. Qed.

(** In every run in which [python manage.py migrate] exits with a non-zero
    status, the run returns the Django set-up error.  [npm start] had been
    started before and nothing is started for Django; the last step is
    [kill()] on the object of [npm start], which signals that process and
    none that it started. *)
Theorem migrate_failure_calls_kill_on_npm (req : string) (w : World)
    (r : result) (st : State) (rc : Z) :
  run req w = (r, st) ->
  rc <> 0%Z ->
  In (ERun manage_migrate "code/django" (Exited rc)) (trace st) ->
  r = Returned ("Error setting up Django project: "
                  ++ str_exc (CalledProcessError rc manage_migrate))
  /\ trace st =
       [ EIsDir "code/node" true;
         ERun npm_install "code/node" (Exited 0);
         EPopen npm_start "code/node" (Some 0);
         ESleep 3;
         EIsDir "code/django" true;
         ERun manage_migrate "code/django" (Exited rc);
         EKill 0 ]
  /\ spawned st = [0]
  /\ running st = []
  /\ descendants st = node_offspring w.
Proof.
  intros Hrun Hrc Hin. paths Hrun; in_trace Hin;
    injection Hin as <-; try contradiction.
  repeat split; reflexivity.
Qed.

Lemma migrate_failure_calls_kill_on_npm_witness :
  (1 <> 0)%Z
  /\ In (ERun manage_migrate "code/django" (Exited 1))
        (trace (snd (run "" Worlds.migrate_fails)))
  /\ fst (run "" Worlds.migrate_fails) =
       Returned "Error setting up Django project: Command '['python', 'manage.py', 'migrate']' returned non-zero exit status 1."
  /\ running (snd (run "" Worlds.migrate_fails)) = [].
Proof.
  assert (Hrc : (1 <> 0)%Z) by discriminate.
  assert (Hin : In (ERun manage_migrate "code/django" (Exited 1))
                   (trace (snd (run "" Worlds.migrate_fails))))
    by (vm_compute; tauto).
  destruct (migrate_failure_calls_kill_on_npm "" Worlds.migrate_fails
              (fst (run "" Worlds.migrate_fails))
              (snd (run "" Worlds.migrate_fails)) 1%Z eq_refl Hrc Hin)
    as (Hr & _ & _ & Hrun & _).
  repeat split; assumption.
Defined.

(* ------------------------------------------------------------------ *)
(** ** The two checks share one [try] *)

(** C8 as stated fails: when the navigation to Node's URL raises, Django's
    URL is never tried. *)
Lemma node_exception_skips_django :
  ~ checks_independent (trace (snd (run "" Worlds.node_not_listening))).
Proof.
  intros H.
  assert (Hnode : visited (trace (snd (run "" Worlds.node_not_listening))) node_url)
    by (exists false; vm_compute; tauto).
  assert (Hdjango : ~ visited (trace (snd (run "" Worlds.node_not_listening))) django_url).
  { intros [ok Hin]. revert Hin. vm_compute. intros Hin.
    repeat (destruct Hin as [Hin|Hin]; [discriminate Hin|]). exact Hin. }
  exact (Hdjango (H Hnode)).
Qed.

(** C8, amended.  A verdict on Node, PASS or FAIL, does not stop the check
    of Django: whenever Node's page was loaded and read, Django's URL is
    tried.  An exception while loading or reading Node's page ends the
    whole block: Django's URL is not tried, no verdict on Django is logged,
    and a Selenium error line is. *)
Theorem django_checked_iff_node_page_read (req : string) (w : World)
    (r : result) (st : State) :
  run req w = (r, st) ->
  (page_read (trace st) node_url -> visited (trace st) django_url)
  /\ (verdict_logged "Node" (log st) = true -> visited (trace st) django_url)
  /\ (visited (trace st) node_url -> ~ page_read (trace st) node_url ->
      ~ visited (trace st) django_url
      /\ verdict_logged "Django" (log st) = false
      /\ exists m, In (selenium_error m) (log st)).
Proof.
  intros H. paths H; (split; [|split]).
  all: try (intros (k & t & Hk & Hk'); nth_cases Hk k; try discriminate Hk';
            django_visited).
  all: try (intros Hv; unfold node_verdict in Hv;
            repeat match type of Hv with
                   | context [str_in "Hello World" ?t] =>
                       destruct (str_in "Hello World" t)
                   end;
            first [ discriminate Hv | django_visited ]).
  all: intros (ok & Hin) Hnot; in_trace Hin.
  all: try (exfalso; apply Hnot; exists 9; eexists; split; reflexivity).
  all: (split; [intros (ok' & Hin'); in_trace Hin'|]);
       (split; [reflexivity | eexists; in_list]).
Qed.

Lemma django_checked_iff_node_page_read_witness :
  (verdict_logged "Node" (log (snd (run "" Worlds.node_wrong_text))) = true
   /\ In "[TEST] Node server: FAIL (no 'Hello World')."
         (log (snd (run "" Worlds.node_wrong_text)))
   /\ visited (trace (snd (run "" Worlds.node_wrong_text))) django_url)
  /\ (visited (trace (snd (run "" Worlds.node_not_listening))) node_url
      /\ ~ page_read (trace (snd (run "" Worlds.node_not_listening))) node_url
      /\ ~ visited (trace (snd (run "" Worlds.node_not_listening))) django_url).
Proof.
  split.
  - assert (Hv : verdict_logged "Node" (log (snd (run "" Worlds.node_wrong_text))) = true)
      by reflexivity.
    split; [exact Hv|]. split; [vm_compute; tauto|].
    exact (proj1 (proj2 (django_checked_iff_node_page_read ""
                           Worlds.node_wrong_text
                           (fst (run "" Worlds.node_wrong_text))
                           (snd (run "" Worlds.node_wrong_text)) eq_refl)) Hv).
  - assert (Hn : visited (trace (snd (run "" Worlds.node_not_listening))) node_url)
      by (exists false; vm_compute; tauto).
    assert (Hp : ~ page_read (trace (snd (run "" Worlds.node_not_listening))) node_url).
    { intros (k & t & Hk & _). revert Hk. vm_compute.
      intros Hk. nth_cases Hk k. }
    split; [exact Hn|]. split; [exact Hp|].
    exact (proj1 (proj2 (proj2 (django_checked_iff_node_page_read ""
                           Worlds.node_not_listening
                           (fst (run "" Worlds.node_not_listening))
                           (snd (run "" Worlds.node_not_listening)) eq_refl))
                   Hn Hp)).
Defined.

(* ------------------------------------------------------------------ *)
(** ** Order of the two launch stages *)

(** C9.  Whenever a step of Django's launch (the migration or the start
    of the server) occurs in a run, Node's directory check, [npm install],
    the start of the Node server and the wait after it have all completed
    before it, and no step of Node's launch occurs after them. *)
Theorem django_steps_after_node_launch (req : string) (w : World)
    (r : result) (st : State) (j : nat) (e : event) :
  run req w = (r, st) ->
  nth_error (trace st) j = Some e ->
  is_django_launch_step e = true ->
  exists rest,
    trace st =
      ([ EIsDir "code/node" true;
         ERun npm_install "code/node" (Exited 0);
         EPopen npm_start "code/node" (Some 0);
         ESleep 3 ] ++ rest)%list
    /\ 4 <= j
    /\ forall e', In e' rest -> is_node_launch_step e' = false.
Proof.
  intros H Hj He. paths H; nth_cases Hj j; try discriminate He.
  all: eexists; split; [reflexivity|]; split; [lia|].
  all: intros e' Hin; in_trace Hin; subst e'; reflexivity.
Qed.

Lemma django_steps_after_node_launch_witness :
  nth_error (trace (snd (run "" Worlds.all_up))) 5
    = Some (ERun manage_migrate "code/django" (Exited 0))
  /\ is_django_launch_step (ERun manage_migrate "code/django" (Exited 0)) = true
  /\ exists rest,
       trace (snd (run "" Worlds.all_up)) =
         ([ EIsDir "code/node" true;
            ERun npm_install "code/node" (Exited 0);
            EPopen npm_start "code/node" (Some 0);
            ESleep 3 ] ++ rest)%list
       /\ 4 <= 5
       /\ forall e', In e' rest -> is_node_launch_step e' = false.
Proof.
  split; [reflexivity|]. split; [reflexivity|].
  exact (django_steps_after_node_launch "" Worlds.all_up
           (fst (run "" Worlds.all_up)) (snd (run "" Worlds.all_up))
           5 (ERun manage_migrate "code/django" (Exited 0))
           eq_refl eq_refl eq_refl).
Defined.

(* ------------------------------------------------------------------ *)
(** ** What the early returns hand back *)

(** The message of a failed [npm install] holds no bracketed tag. *)
Lemma install_error_no_tag (rc : Z) (needle : string) :
  str_in (String "[" (String "T" needle))
    ("Error installing node dependencies: "
       ++ str_exc (CalledProcessError rc npm_install)) = false.
Proof.
  simpl str_exc.
  destruct (str_CalledProcessError_tail rc npm_install) as (q & Hq & ->).
  simpl. now apply str_in_first_char.
Qed.

(** Nor does the message of a failed migration. *)
Lemma django_error_no_tag (rc : Z) (needle : string) :
  str_in (String "[" (String "T" needle))
    ("Error setting up Django project: "
       ++ str_exc (CalledProcessError rc manage_migrate)) = false.
Proof.
  simpl str_exc.
  destruct (str_CalledProcessError_tail rc manage_migrate) as (q & Hq & ->).
  simpl. now apply str_in_first_char.
Qed.

(** C10.  A run that returns before the Selenium block returns one of the
    four error messages; the message holds no [[TEST]] tag and none of the
    lines logged so far.  The joined log is what is returned exactly on the
    runs that reached the Selenium block. *)
Theorem early_return_is_single_message (req : string) (w : World)
    (v : string) (st : State) :
  run req w = (Returned v, st) ->
  (reached_selenium (trace st) = false ->
     early_message v
     /\ str_in "[TEST]" v = false
     /\ forall line, In line (log st) -> str_in line v = false)
  /\ (v = join newline (log st) <-> reached_selenium (trace st) = true).
Proof.
  intros H. remember (Returned v) as r eqn:Hr. revert Hr.
  paths H; intros Hr; try discriminate Hr; injection Hr as <-.
  - (* code/node is missing *)
    split; [intros _|split; discriminate].
    split; [left; reflexivity|]. split; [reflexivity|]. intros line [].
  - (* npm install exits non-zero *)
    split; [intros _|split; discriminate].
    split; [right; left; eexists; reflexivity|].
    split; [apply install_error_no_tag|].
    intros line Hin. in_trace Hin. subst line. apply install_error_no_tag.
  - (* code/django is missing *)
    split; [intros _|split; discriminate].
    split; [right; right; left; reflexivity|]. split; [reflexivity|].
    intros line Hin. in_trace Hin; subst line; reflexivity.
  - (* the migration exits non-zero *)
    split; [intros _|split; discriminate].
    split; [right; right; right; eexists; reflexivity|].
    split; [apply django_error_no_tag|].
    intros line Hin. in_trace Hin; subst line; apply django_error_no_tag.
  - split; [discriminate|split; reflexivity].
  - split; [discriminate|split; reflexivity].
  - split; [discriminate|split; reflexivity].
  - split; [discriminate|split; reflexivity].
  - split; [discriminate|split; reflexivity].
  - split; [discriminate|split; reflexivity].
  - split; [discriminate|split; reflexivity].
Qed.

Lemma early_return_is_single_message_witness :
  run "" Worlds.migrate_fails
    = (Returned "Error setting up Django project: Command '['python', 'manage.py', 'migrate']' returned non-zero exit status 1.",
       snd (run "" Worlds.migrate_fails))
  /\ reached_selenium (trace (snd (run "" Worlds.migrate_fails))) = false
  /\ str_in "[TEST]" "Error setting up Django project: Command '['python', 'manage.py', 'migrate']' returned non-zero exit status 1." = false
  /\ log (snd (run "" Worlds.migrate_fails)) =
       [ "[TEST] Installing Node dependencies with 'npm install'...";
         "[TEST] Starting Node server on port 3000...";
         "[TEST] Applying Django migrations and starting server on port 8000..." ].
Proof.
  assert (Hrun : run "" Worlds.migrate_fails
    = (Returned "Error setting up Django project: Command '['python', 'manage.py', 'migrate']' returned non-zero exit status 1.",
       snd (run "" Worlds.migrate_fails))) by reflexivity.
  assert (Hearly : reached_selenium (trace (snd (run "" Worlds.migrate_fails))) = false)
    by reflexivity.
  destruct (proj1 (early_return_is_single_message "" Worlds.migrate_fails _ _ Hrun)
              Hearly) as (_ & Htag & _).
  split; [exact Hrun|]. split; [exact Hearly|].
  split; [exact Htag|reflexivity].
Defined.

(* ------------------------------------------------------------------ *)
(** ** RequirementsManager.forward: the request inside the text *)

Lemma append_assoc (a b c : string) : (a ++ b) ++ c = a ++ (b ++ c).
Proof. induction a as [|x a IH]; simpl; [reflexivity | now rewrite IH]. Qed.

Lemma append_length (a b : string) :
  String.length (a ++ b) = String.length a + String.length b.
Proof. induction a as [|x a IH]; simpl; [reflexivity | now rewrite IH]. Qed.

Lemma append_cancel_l (p a b : string) : p ++ a = p ++ b -> a = b.
Proof.
  induction p as [|x p IH]; simpl; [trivial|].
  intros [= H]. auto.
Qed.

Lemma append_cancel_r (a b t : string) : a ++ t = b ++ t -> a = b.
Proof.
  revert b. induction a as [|x a IH]; intros [|y b] H; simpl in H.
  - reflexivity.
  - exfalso. apply (f_equal String.length) in H. simpl in H.
    rewrite append_length in H. lia.
  - exfalso. apply (f_equal String.length) in H. simpl in H.
    rewrite append_length in H. lia.
  - injection H as -> H. f_equal. auto.
Qed.

Lemma prefix_append (a b : string) : String.prefix a (a ++ b) = true.
Proof.
  induction a as [|x a IH]; simpl; [now destruct b|].
  destruct (ascii_dec x x) as [_|n]; [exact IH | now elim n].
Qed.

Lemma str_in_prefix (needle hay : string) :
  String.prefix needle hay = true -> str_in needle hay = true.
Proof.
  destruct hay as [|c hay]; simpl; intros H; [exact H|].
  destruct needle as [|x needle]; [reflexivity|].
  simpl in H. simpl. now rewrite H.
Qed.

(** A text contains whatever stands in its middle. *)
Lemma str_in_middle (a needle b : string) :
  str_in needle (a ++ needle ++ b) = true.
Proof.
  induction a as [|x a IH]; simpl.
  - apply str_in_prefix, prefix_append.
  - rewrite IH. apply orb_true_r.
Qed.

Lemma count_char_app (c : ascii) (a b : string) :
  count_char c (a ++ b) = count_char c a + count_char c b.
Proof.
  induction a as [|x a IH]; simpl; [reflexivity|]. rewrite IH. lia.
Qed.

(** The text is the quoted request between a fixed head and a fixed
    tail. *)
Lemma RequirementsManager_forward_shape :
  exists tail, forall user_request,
    RequirementsManager_forward user_request
    = "User Request: '" ++ user_request ++ "'" ++ tail.
Proof.
  eexists. intros user_request.
  unfold RequirementsManager_forward, list_append, join. simpl.
  rewrite !append_assoc. simpl. reflexivity.
Qed.

(** The request can be read back from the text: two requests with the same
    requirements text are the same request. *)
Theorem RequirementsManager_forward_injective (a b : string) :
  RequirementsManager_forward a = RequirementsManager_forward b -> a = b.
Proof.
  destruct RequirementsManager_forward_shape as [tail Hshape].
  rewrite !Hshape. intros H.
  apply append_cancel_l in H. now apply append_cancel_r in H.
Qed.

Lemma RequirementsManager_forward_injective_witness :
  RequirementsManager_forward "build it" = RequirementsManager_forward "build it"
  /\ "build it" = "build it".
Proof.
  split; [reflexivity|].
  exact (RequirementsManager_forward_injective "build it" "build it" eq_refl).
Defined.

(** The text starts with the request between single quotes, taken as it
    is, whatever characters it holds. *)
Theorem RequirementsManager_forward_quotes_request (user_request : string) :
  String.prefix ("User Request: '" ++ user_request ++ "'")
    (RequirementsManager_forward user_request) = true
  /\ str_in user_request (RequirementsManager_forward user_request) = true.
Proof.
  destruct RequirementsManager_forward_shape as [tail ->].
  split.
  - replace ("User Request: '" ++ user_request ++ "'" ++ tail)
      with (("User Request: '" ++ user_request ++ "'") ++ tail)
      by (now rewrite !append_assoc).
    apply prefix_append.
  - apply str_in_middle.
Qed.

(** Six line breaks are added to those of the request: a request of one
    line gives a text of seven lines. *)
Theorem RequirementsManager_forward_line_breaks (user_request : string) :
  count_char (ascii_of_nat 10) (RequirementsManager_forward user_request)
  = 6 + count_char (ascii_of_nat 10) user_request.
Proof.
  destruct RequirementsManager_forward_shape as [tail Hshape].
  pose proof (Hshape "") as H0.
  rewrite Hshape, !count_char_app.
  apply (f_equal (count_char (ascii_of_nat 10))) in H0.
  rewrite !count_char_app in H0.
  change (count_char (ascii_of_nat 10) (RequirementsManager_forward "")) with 6 in H0.
  simpl in H0. simpl. lia.
Qed.

(* ------------------------------------------------------------------ *)
(** ** SuperDeveloper.forward: case analysis *)

Arguments json_dumps : simpl never.
Arguments strip : simpl never.

Ltac dev_cases w :=
  unfold develop, call, SuperDeveloper_forward, bind, try_except, os_makedirs,
    write_file, os_path_exists, dev_subprocess_run, py_return, ret, list_append,
    os_path_join;
  simpl;
  repeat (match goal with
          | |- context [makedirs w ?p] => destruct (makedirs w p) eqn:?
          | |- context [write_text w ?p ?c] => destruct (write_text w p c) eqn:?
          | |- context [path_exists w ?p] => destruct (path_exists w p) eqn:?
          | |- context [run_admin w ?a ?d] => destruct (run_admin w a d) eqn:?
          | |- context [Z.eqb ?rc 0%Z] => destruct (Z.eqb rc 0%Z) eqn:?
          end; simpl).

(** Split a hypothesis [In e tr] on a computed developer trace. *)
Ltac in_dev H :=
  simpl in H;
  repeat (destruct H as [H|H]; [try discriminate H|]);
  try contradiction.

(** ** SuperDeveloper.forward: how a call ends *)

(** A call ends in one of three ways: the success text is returned; the
    error text of a [django-admin] that exited non-zero is returned; or an
    [OSError] (a directory or file that cannot be written, a
    [django-admin] that cannot be started) leaves [forward].  No
    [CalledProcessError] ever leaves it. *)
Theorem developer_outcomes (req : string) (w : DevWorld) (r : result)
    (tr : list dev_event) :
  develop req w = (r, tr) ->
  r = Returned developer_success
  \/ (exists rc, rc <> 0%Z
        /\ run_admin w (startproject "helloproject") "code/django" = Exited rc
        /\ r = Returned ("Error creating Django project: "
                           ++ str_exc (CalledProcessError rc (startproject "helloproject"))))
  \/ (exists m, r = Threw (OSError m)).
Proof.
  dev_cases w; intros [= <- <-]; exit_codes;
    first [ left; reflexivity
          | right; right; eexists; reflexivity
          | right; left; eexists; split; [eassumption|];
            split; reflexivity ].
Qed.

Lemma developer_outcomes_witness :
  fst (develop "" DevWorlds.admin_fails)
  = Returned "Error creating Django project: Command '['django-admin', 'startproject', 'helloproject', '.']' returned non-zero exit status 1.".
Proof.
  destruct (developer_outcomes "" DevWorlds.admin_fails
              (fst (develop "" DevWorlds.admin_fails))
              (snd (develop "" DevWorlds.admin_fails)) eq_refl)
    as [H | [(rc & _ & Hrc & H) | (m & H)]].
  - discriminate H.
  - injection Hrc as <-. exact H.
  - discriminate H.
Defined.

(** A step that fails is the last step: nothing is created, written or
    run after a directory or file could not be written or [django-admin]
    did not exit with status 0, and the success text is not returned. *)
Theorem developer_stops_at_first_failure (req : string) (w : DevWorld)
    (r : result) (tr : list dev_event) (i : nat) (e : dev_event) :
  develop req w = (r, tr) ->
  nth_error tr i = Some e ->
  dev_failed e = true ->
  length tr = S i /\ r <> Returned developer_success.
Proof.
  dev_cases w; intros [= <- <-] Hi He; exit_codes;
    nth_cases Hi i; simpl in He; try discriminate He;
    try (apply Z.eqb_eq in He; contradiction);
    (split; [reflexivity | discriminate]).
Qed.

Lemma developer_stops_at_first_failure_witness :
  nth_error (snd (develop "" DevWorlds.index_js_read_only)) 2
    = Some (DWrite "code/node/index.js" node_js false)
  /\ dev_failed (DWrite "code/node/index.js" node_js false) = true
  /\ length (snd (develop "" DevWorlds.index_js_read_only)) = 3
  /\ fst (develop "" DevWorlds.index_js_read_only) <> Returned developer_success.
Proof.
  split; [reflexivity|]. split; [reflexivity|].
  exact (developer_stops_at_first_failure "" DevWorlds.index_js_read_only
           (fst (develop "" DevWorlds.index_js_read_only))
           (snd (develop "" DevWorlds.index_js_read_only))
           2 (DWrite "code/node/index.js" node_js false)
           eq_refl eq_refl eq_refl).
Defined.

(** ** SuperDeveloper.forward: when [django-admin] is run *)

(** [django-admin startproject helloproject .] is run in [code/django]
    exactly when [code/django/helloproject/manage.py] was looked for and
    not found; no other command is ever run, and none when the file is
    there. *)
Theorem startproject_run_iff_manage_py_absent (req : string) (w : DevWorld)
    (r : result) (tr : list dev_event) :
  develop req w = (r, tr) ->
  (forall argv cwd res, In (DRun argv cwd res) tr ->
     argv = startproject "helloproject" /\ cwd = "code/django"
     /\ res = run_admin w (startproject "helloproject") "code/django")
  /\ ((exists res, In (DRun (startproject "helloproject") "code/django" res) tr)
      <-> In (DExists "code/django/helloproject/manage.py" false) tr).
Proof.
  dev_cases w; intros [= <- <-]; (split; [|split]).
  all: try (intros argv cwd res Hin; in_dev Hin; injection Hin as <- <- <-;
            repeat split; congruence).
  all: try (intros (res & Hin); in_dev Hin).
  all: try (intros Hin; in_dev Hin).
  all: try in_list.
  all: eexists; in_list.
Qed.

Lemma startproject_run_iff_manage_py_absent_witness :
  In (DExists "code/django/helloproject/manage.py" false)
     (snd (develop "" DevWorlds.fresh))
  /\ exists res,
       In (DRun (startproject "helloproject") "code/django" res)
          (snd (develop "" DevWorlds.fresh)).
Proof.
  assert (H : In (DExists "code/django/helloproject/manage.py" false)
                 (snd (develop "" DevWorlds.fresh)))
    by (vm_compute; tauto).
  split; [exact H|].
  exact (proj2 (proj2 (startproject_run_iff_manage_py_absent ""
                         DevWorlds.fresh
                         (fst (develop "" DevWorlds.fresh))
                         (snd (develop "" DevWorlds.fresh)) eq_refl)) H).
Defined.

(** When [django-admin] exits with a non-zero status, the error text is
    returned; by then both directories exist and the two files of the Node
    project have been written, and [urls.py] is not written. *)
Theorem startproject_failure_keeps_node_project (req : string) (w : DevWorld)
    (r : result) (tr : list dev_event) (rc : Z) :
  develop req w = (r, tr) ->
  rc <> 0%Z ->
  In (DRun (startproject "helloproject") "code/django" (Exited rc)) tr ->
  r = Returned ("Error creating Django project: "
                  ++ str_exc (CalledProcessError rc (startproject "helloproject")))
  /\ tr = [ DMakedirs "code/node" true;
            DWrite "code/node/package.json" (json_dumps package_json) true;
            DWrite "code/node/index.js" node_js true;
            DMakedirs "code/django" true;
            DExists "code/django/helloproject/manage.py" false;
            DRun (startproject "helloproject") "code/django" (Exited rc) ].
Proof.
  dev_cases w; intros [= <- <-] Hrc Hin; exit_codes; in_dev Hin;
    injection Hin as <-; try contradiction.
  all: split; reflexivity.
Qed.

Lemma startproject_failure_keeps_node_project_witness :
  (1 <> 0)%Z
  /\ In (DRun (startproject "helloproject") "code/django" (Exited 1))
        (snd (develop "" DevWorlds.admin_fails))
  /\ fst (develop "" DevWorlds.admin_fails)
     = Returned "Error creating Django project: Command '['django-admin', 'startproject', 'helloproject', '.']' returned non-zero exit status 1.".
Proof.
  assert (Hrc : (1 <> 0)%Z) by discriminate.
  assert (Hin : In (DRun (startproject "helloproject") "code/django" (Exited 1))
                   (snd (develop "" DevWorlds.admin_fails)))
    by (vm_compute; tauto).
  split; [exact Hrc|]. split; [exact Hin|].
  exact (proj1 (startproject_failure_keeps_node_project "" DevWorlds.admin_fails
                  (fst (develop "" DevWorlds.admin_fails))
                  (snd (develop "" DevWorlds.admin_fails)) 1%Z eq_refl Hrc Hin)).
Defined.

(** ** SuperDeveloper.forward: a call that succeeds *)

(** The success text is returned exactly when [urls.py] was written.  A
    call that returns it has created [code/node], written [package.json]
    and [index.js] there, created [code/django], and written [urls.py]
    last, every step having gone through; between the last two lies the
    look for [manage.py] and, if it was absent, the run of
    [django-admin]. *)
Theorem developer_success_writes_three_files (req : string) (w : DevWorld)
    (r : result) (tr : list dev_event) :
  develop req w = (r, tr) ->
  (r = Returned developer_success
   <-> In (DWrite "code/django/helloproject/urls.py" django_urls_contents true) tr)
  /\ (r = Returned developer_success ->
      exists between,
        tr = ([ DMakedirs "code/node" true;
                DWrite "code/node/package.json" (json_dumps package_json) true;
                DWrite "code/node/index.js" node_js true;
                DMakedirs "code/django" true ]
              ++ between
              ++ [ DWrite "code/django/helloproject/urls.py"
                     django_urls_contents true ])%list
        /\ (between = [ DExists "code/django/helloproject/manage.py" true ]
            \/ between =
                 [ DExists "code/django/helloproject/manage.py" false;
                   DRun (startproject "helloproject") "code/django" (Exited 0) ])).
Proof.
  dev_cases w; intros [= <- <-]; exit_codes; split.
  all: try (split; [discriminate | intros Hin; in_dev Hin]).
  all: try discriminate.
  all: try (split; [intros _; in_list | reflexivity]).
  all: intros _;
    first [ exists [DExists "code/django/helloproject/manage.py" true];
            split; [reflexivity | left; reflexivity]
          | exists [DExists "code/django/helloproject/manage.py" false;
                    DRun (startproject "helloproject") "code/django" (Exited 0)];
            split; [reflexivity | right; reflexivity] ].
Qed.

Lemma developer_success_writes_three_files_witness :
  fst (develop "" DevWorlds.project_exists) = Returned developer_success
  /\ In (DWrite "code/django/helloproject/urls.py" django_urls_contents true)
        (snd (develop "" DevWorlds.project_exists)).
Proof.
  assert (Hr : fst (develop "" DevWorlds.project_exists) = Returned developer_success)
    by reflexivity.
  split; [exact Hr|].
  exact (proj1 (proj1 (developer_success_writes_three_files ""
                         DevWorlds.project_exists
                         (fst (develop "" DevWorlds.project_exists))
                         (snd (develop "" DevWorlds.project_exists)) eq_refl)) Hr).
Defined.

(** ** SuperDeveloper.forward: where it works *)

(** Every directory created, every file written or looked for and the
    working directory of every command lies under [code/]: the tool
    touches nothing else. *)
Theorem developer_stays_under_code (req : string) (w : DevWorld)
    (r : result) (tr : list dev_event) (e : dev_event) :
  develop req w = (r, tr) ->
  In e tr ->
  String.prefix "code/" (dev_path e) = true.
Proof.
  dev_cases w; intros [= <- <-] Hin; simpl in Hin;
    repeat (destruct Hin as [<-|Hin]; [reflexivity|]); contradiction.
Qed.

Lemma developer_stays_under_code_witness :
  In (DWrite "code/node/index.js" node_js true) (snd (develop "" DevWorlds.fresh))
  /\ String.prefix "code/" "code/node/index.js" = true.
Proof.
  assert (Hin : In (DWrite "code/node/index.js" node_js true)
                   (snd (develop "" DevWorlds.fresh)))
    by (vm_compute; tauto).
  split; [exact Hin|].
  exact (developer_stays_under_code "" DevWorlds.fresh
           (fst (develop "" DevWorlds.fresh)) (snd (develop "" DevWorlds.fresh))
           (DWrite "code/node/index.js" node_js true) eq_refl Hin).
Defined.

(* ------------------------------------------------------------------ *)
(** ** SuperTester.forward: more on teardown and verdicts *)

Lemma returned_run_kills_children_witness :
  run "" Worlds.migrate_fails
    = (Returned "Error setting up Django project: Command '['python', 'manage.py', 'migrate']' returned non-zero exit status 1.",
       snd (run "" Worlds.migrate_fails))
  /\ spawned (snd (run "" Worlds.migrate_fails)) = [0]
  /\ running (snd (run "" Worlds.migrate_fails)) = [].
Proof.
  assert (Hrun : run "" Worlds.migrate_fails
    = (Returned "Error setting up Django project: Command '['python', 'manage.py', 'migrate']' returned non-zero exit status 1.",
       snd (run "" Worlds.migrate_fails))) by reflexivity.
  split; [exact Hrun|]. split; [reflexivity|].
  exact (returned_run_kills_children "" Worlds.migrate_fails _ _ Hrun).
Defined.

(** Once the Selenium block is reached, whatever the browser does, the run
    returns the joined log, whose last line announces the shutdown, and
    its last two steps are [kill()] on the object of [npm start] and then
    on the object of [manage.py runserver].  Nothing else is signalled:
    what those two commands started themselves is all still there. *)
Theorem selenium_block_always_reaches_teardown (req : string) (w : World)
    (r : result) (st : State) :
  run req w = (r, st) ->
  reached_selenium (trace st) = true ->
  r = Returned (join newline (log st))
  /\ (exists before, trace st = (before ++ [EKill 0; EKill 1])%list)
  /\ spawned st = [0; 1]
  /\ last (log st) "" = "[TEST] Shutting down servers..."
  /\ descendants st = (node_offspring w ++ django_offspring w)%list.
Proof.
  intros H Hsel. paths H; try discriminate Hsel.
  all: split; [reflexivity|]; split; [|repeat split; reflexivity].
  all: match goal with
       | |- exists before, trace {| trace := (?a ++ ?b ++ ?c)%list |} = _ =>
           exists (a ++ b)%list; simpl; reflexivity
       end.
Qed.

Lemma selenium_block_always_reaches_teardown_witness :
  reached_selenium (trace (snd (run "" Worlds.node_not_listening))) = true
  /\ fst (run "" Worlds.node_not_listening)
     = Returned (join newline (log (snd (run "" Worlds.node_not_listening))))
  /\ last (log (snd (run "" Worlds.node_not_listening))) ""
     = "[TEST] Shutting down servers...".
Proof.
  assert (Hsel : reached_selenium (trace (snd (run "" Worlds.node_not_listening))) = true)
    by reflexivity.
  destruct (selenium_block_always_reaches_teardown "" Worlds.node_not_listening
              (fst (run "" Worlds.node_not_listening))
              (snd (run "" Worlds.node_not_listening)) eq_refl Hsel)
    as (Hr & _ & _ & Hlast & _).
  split; [exact Hsel|]. split; [exact Hr | exact Hlast].
Defined.

(** A PASS line is logged for a service exactly when the body text read
    from its page contains [Hello World]; a FAIL line exactly when it was
    read and does not. *)
Theorem verdict_matches_page_text (req : string) (w : World)
    (r : result) (st : State) :
  run req w = (r, st) ->
  (In "[TEST] Node server: PASS (contains 'Hello World')." (log st)
   <-> exists t, page_read (trace st) node_url
                 /\ body_text w (Some node_url) = inl t
                 /\ str_in "Hello World" t = true)
  /\ (In "[TEST] Node server: FAIL (no 'Hello World')." (log st)
      <-> exists t, page_read (trace st) node_url
                    /\ body_text w (Some node_url) = inl t
                    /\ str_in "Hello World" t = false)
  /\ (In "[TEST] Django server: PASS (contains 'Hello World')." (log st)
      <-> exists t, page_read (trace st) django_url
                    /\ body_text w (Some django_url) = inl t
                    /\ str_in "Hello World" t = true)
  /\ (In "[TEST] Django server: FAIL (no 'Hello World')." (log st)
      <-> exists t, page_read (trace st) django_url
                    /\ body_text w (Some django_url) = inl t
                    /\ str_in "Hello World" t = false).
Proof.
  intros H. paths H.
  all: repeat match goal with |- _ /\ _ => split end.
  all: split.
  (* a line is in the log: find the text it was decided on *)
  all: try (intros Hin;
            cbv beta delta [node_verdict django_verdict selenium_error] in Hin;
            repeat match type of Hin with
                   | context [str_in "Hello World" ?t] =>
                       destruct (str_in "Hello World" t) eqn:?
                   end;
            in_trace Hin;
            (eexists; split;
             [ first [ exists 9; eexists; split; reflexivity
                     | exists 11; eexists; split; reflexivity ]
             | split; eassumption ])).
  (* the page was read with such a text: the line is in the log *)
  all: intros (t & (k & t' & Hk & Hk') & Hbody & Htext);
       nth_cases Hk k; try discriminate Hk';
       try congruence.
  all: repeat match goal with
       | Hb : body_text ?w0 ?p = inl ?x, Hb' : body_text ?w0 ?p = inl ?y |- _ =>
           rewrite Hb in Hb'; injection Hb' as ?; subst
       end.
  all: unfold node_verdict, django_verdict; rewrite ?Htext; in_list.
Qed.

Lemma verdict_matches_page_text_witness :
  In "[TEST] Node server: FAIL (no 'Hello World')."
     (log (snd (run "" Worlds.node_wrong_text)))
  /\ exists t, page_read (trace (snd (run "" Worlds.node_wrong_text))) node_url
               /\ body_text Worlds.node_wrong_text (Some node_url) = inl t
               /\ str_in "Hello World" t = false.
Proof.
  assert (Hin : In "[TEST] Node server: FAIL (no 'Hello World')."
                   (log (snd (run "" Worlds.node_wrong_text))))
    by (vm_compute; tauto).
  split; [exact Hin|].
  exact (proj1 (proj1 (proj2 (verdict_matches_page_text ""
                                Worlds.node_wrong_text
                                (fst (run "" Worlds.node_wrong_text))
                                (snd (run "" Worlds.node_wrong_text)) eq_refl)))
           Hin).
Defined.

(** The tool kills only children it started itself, each at most once,
    and starts at most two. *)
Theorem kills_only_own_children (req : string) (w : World)
    (r : result) (st : State) :
  run req w = (r, st) ->
  (forall k p, nth_error (trace st) k = Some (EKill p) ->
     (exists i argv cwd, i < k
        /\ nth_error (trace st) i = Some (EPopen argv cwd (Some p)))
     /\ forall k', nth_error (trace st) k' = Some (EKill p) -> k' = k)
  /\ length (spawned st) <= 2.
Proof.
  intros H. paths H; (split; [|simpl; lia]).
  all: intros k p Hk; nth_cases Hk k.
  all: split;
    [ first [ exists 2; do 2 eexists; split; [lia | reflexivity]
            | exists 6; do 2 eexists; split; [lia | reflexivity] ]
    | intros k' Hk'; nth_cases Hk' k'; reflexivity ].
Qed.

Lemma kills_only_own_children_witness :
  nth_error (trace (snd (run "" Worlds.all_up))) 15 = Some (EKill 1)
  /\ exists i argv cwd, i < 15
       /\ nth_error (trace (snd (run "" Worlds.all_up))) i
          = Some (EPopen argv cwd (Some 1)).
Proof.
  split; [reflexivity|].
  exact (proj1 (proj1 (kills_only_own_children "" Worlds.all_up
                         (fst (run "" Worlds.all_up))
                         (snd (run "" Worlds.all_up)) eq_refl)
                  15 1 eq_refl)).
Defined.

(* ------------------------------------------------------------------ *)
(** ** SuperDeveloper and SuperTester together *)

(** Split a hypothesis [In e tr] on a computed trace; does nothing to a
    hypothesis of another shape. *)
Ltac in_events H :=
  simpl in H;
  repeat (match type of H with
          | _ \/ _ => destruct H as [H|H]; [try discriminate H|]
          end);
  try contradiction.

(** Whatever the tester looks for or works in was made by a developer call
    that returned its success text: each directory the tester checks, and
    the working directory of each command it runs or starts, is a directory
    the developer created; and where the tester runs [npm], the developer
    wrote [package.json] and [index.js]. *)
Theorem tester_works_where_developer_wrote (req req' : string)
    (dw : DevWorld) (tr : list dev_event) (w : World) (r : result)
    (st : State) :
  develop req dw = (Returned developer_success, tr) ->
  run req' w = (r, st) ->
  (forall p found, In (EIsDir p found) (trace st) -> In (DMakedirs p true) tr)
  /\ (forall argv cwd res, In (ERun argv cwd res) (trace st) ->
        In (DMakedirs cwd true) tr)
  /\ (forall argv cwd p, In (EPopen argv cwd p) (trace st) ->
        In (DMakedirs cwd true) tr)
  /\ (forall cwd res, In (ERun npm_install cwd res) (trace st) ->
        In (DWrite (os_path_join cwd "package.json") (json_dumps package_json) true) tr)
  /\ (forall cwd p, In (EPopen npm_start cwd p) (trace st) ->
        In (DWrite (os_path_join cwd "index.js") node_js true) tr).
Proof.
  intros Hdev Hrun.
  assert (Hdirs : In (DMakedirs "code/node" true) tr
                  /\ In (DMakedirs "code/django" true) tr
                  /\ In (DWrite "code/node/package.json" (json_dumps package_json) true) tr
                  /\ In (DWrite "code/node/index.js" node_js true) tr).
  { revert Hdev. dev_cases dw; intros [= <-]; try discriminate;
      repeat split; in_list. }
  destruct Hdirs as (Hn & Hd & Hp & Hi).
  paths Hrun; (split; [|split; [|split; [|split]]]).
  all: intros;
       match goal with
       | Hin : In _ _ |- _ =>
           in_events Hin; injection Hin; intros; subst; assumption
       end.
Qed.

Lemma tester_works_where_developer_wrote_witness :
  develop "" DevWorlds.fresh
    = (Returned developer_success, snd (develop "" DevWorlds.fresh))
  /\ In (ERun npm_install "code/node" (Exited 0))
        (trace (snd (run "" Worlds.all_up)))
  /\ In (DWrite "code/node/package.json" (json_dumps package_json) true)
        (snd (develop "" DevWorlds.fresh)).
Proof.
  assert (Hdev : develop "" DevWorlds.fresh
                 = (Returned developer_success, snd (develop "" DevWorlds.fresh)))
    by reflexivity.
  assert (Hin : In (ERun npm_install "code/node" (Exited 0))
                   (trace (snd (run "" Worlds.all_up))))
    by (vm_compute; tauto).
  split; [exact Hdev|]. split; [exact Hin|].
  exact (proj1 (proj2 (proj2 (proj2
           (tester_works_where_developer_wrote "" "" DevWorlds.fresh _
              Worlds.all_up (fst (run "" Worlds.all_up))
              (snd (run "" Worlds.all_up)) Hdev eq_refl))))
           "code/node" (Exited 0) Hin).
Defined.

(** The [manage.py] whose presence decides whether the developer runs
    [django-admin] is not the [manage.py] the tester executes: it lies in
    no working directory of a command of the tester. *)
Theorem developer_checks_another_manage_py (req req' : string)
    (dw : DevWorld) (dr : result) (tr : list dev_event) (w : World)
    (r : result) (st : State) (p : string) (found : bool)
    (argv : list string) (cwd : string) (res : child_result) :
  develop req dw = (dr, tr) ->
  run req' w = (r, st) ->
  In (DExists p found) tr ->
  In (ERun argv cwd res) (trace st) ->
  p = "code/django/helloproject/manage.py"
  /\ p <> os_path_join cwd "manage.py".
Proof.
  intros Hdev Hrun Hp Hin.
  assert (Hpath : p = "code/django/helloproject/manage.py").
  { revert Hdev Hp. dev_cases dw; intros [= <- <-] Hp; in_events Hp;
      injection Hp as <- _; reflexivity. }
  split; [exact Hpath|]. subst p.
  paths Hrun; in_events Hin; injection Hin; intros; subst; discriminate.
Qed.

Lemma developer_checks_another_manage_py_witness :
  In (DExists "code/django/helloproject/manage.py" false)
     (snd (develop "" DevWorlds.fresh))
  /\ In (ERun manage_migrate "code/django" (Exited 0))
        (trace (snd (run "" Worlds.all_up)))
  /\ "code/django/helloproject/manage.py" <> os_path_join "code/django" "manage.py".
Proof.
  assert (Hp : In (DExists "code/django/helloproject/manage.py" false)
                  (snd (develop "" DevWorlds.fresh)))
    by (vm_compute; tauto).
  assert (Hin : In (ERun manage_migrate "code/django" (Exited 0))
                   (trace (snd (run "" Worlds.all_up))))
    by (vm_compute; tauto).
  split; [exact Hp|]. split; [exact Hin|].
  exact (proj2 (developer_checks_another_manage_py "" "" DevWorlds.fresh
                  (fst (develop "" DevWorlds.fresh))
                  (snd (develop "" DevWorlds.fresh))
                  Worlds.all_up (fst (run "" Worlds.all_up))
                  (snd (run "" Worlds.all_up))
                  "code/django/helloproject/manage.py" false
                  manage_migrate "code/django" (Exited 0)
                  eq_refl eq_refl Hp Hin)).
Defined.
